(** * PrayerApp: the CSV loaders and the session state of PrayerApp.py

    A shallow embedding of [PrayerApp/PrayerApp.py]: the phone formatter,
    the CSV loaders with their fallbacks, and the event handlers of the
    Reflex [State] class, followed by the properties of the specification.

    Conventions.
    - A Python [str] is a [string]; each [ascii] stands for the code point
      of the same number (0..255).  The character classes [str.isdigit]
      and [str.isspace] are written out for that range.
    - A handler mutates [self] and may return an event (a redirect or a
      toast): it is a function from the state and the world to the new
      state, the returned event and the new world.
    - [print] only writes to the console and is left out. *)

From Stdlib Require Import Ascii String.
From Stdlib Require Import ZifyNat.
From stdpp Require Import gmap strings list fin_maps.

Local Open Scope nat_scope.

(** ** Python strings *)

Module Str.

(** [str.isdigit] on one character: the decimal digits and the three
    superscript digits of Latin-1 (U+00B2, U+00B3, U+00B9). *)
Definition isdigit (c : ascii) : bool :=
  let n := nat_of_ascii c in
  ((48 <=? n) && (n <=? 57)) || (n =? 178) || (n =? 179) || (n =? 185).

(** [str.isspace] on one character: TAB..CR, FS..US, space, NEL, NBSP. *)
Definition isspace (c : ascii) : bool :=
  let n := nat_of_ascii c in
  ((9 <=? n) && (n <=? 13)) || ((28 <=? n) && (n <=? 32))
  || (n =? 133) || (n =? 160).

(** [''.join(filter(p, s))] *)
Fixpoint filter (p : ascii -> bool) (s : string) : string :=
  match s with
  | EmptyString => EmptyString
  | String c r => if p c then String c (filter p r) else filter p r
  end.

(** [s[:n]] *)
Fixpoint take (n : nat) (s : string) : string :=
  match n, s with
  | S k, String c r => String c (take k r)
  | _, _ => EmptyString
  end.

(** [s[n:]] *)
Fixpoint drop (n : nat) (s : string) : string :=
  match n, s with
  | S k, String _ r => drop k r
  | _, _ => s
  end.

(** [s[lo:hi]] for [0 <= lo <= hi] *)
Definition slice (lo hi : nat) (s : string) : string :=
  take (hi - lo) (drop lo s).

Fixpoint rev_onto (s acc : string) : string :=
  match s with
  | EmptyString => acc
  | String c r => rev_onto r (String c acc)
  end.

Definition rev (s : string) : string := rev_onto s EmptyString.

(** [s.lstrip()] *)
Fixpoint lstrip (s : string) : string :=
  match s with
  | EmptyString => EmptyString
  | String c r => if isspace c then lstrip r else s
  end.

(** [s.rstrip()] *)
Definition rstrip (s : string) : string := rev (lstrip (rev s)).

(** [s.strip()] *)
Definition strip (s : string) : string := rstrip (lstrip s).

(** Truth value of a string: [bool(s)], false exactly for [""]. *)
Definition truthy (s : string) : bool :=
  match s with EmptyString => false | String _ _ => true end.

End Str.

(** ** [_format_phone_number] *)

Definition _format_phone_number (phone : string) : string :=
  let digits := Str.filter Str.isdigit phone in
  if String.length digits =? 10 then
    "(" +:+ Str.slice 0 3 digits +:+ ") " +:+ Str.slice 3 6 digits
        +:+ "-" +:+ Str.drop 6 digits
  else phone.

(** ** Exceptions and results *)

Inductive exn : Type :=
| FileNotFoundError (msg : string)
| UnicodeDecodeError (msg : string)
| EmptyDataError (msg : string)
| ParserError (msg : string)
| ValueError (msg : string)
| OSError (msg : string).

(** [str(e)] *)
Definition str_exn (e : exn) : string :=
  match e with
  | FileNotFoundError m | UnicodeDecodeError m | EmptyDataError m
  | ParserError m | ValueError m | OSError m => m
  end.

Inductive result (A : Type) : Type :=
| Ok (a : A)
| Raise (e : exn).

Arguments Ok {A} a.
Arguments Raise {A} e.

(** ** Tables *)

(** A cell of a frame read with [dtype=str]: a string, or the missing
    value NaN. *)
Inductive cell : Type :=
| NaN
| Cell (s : string).

(** A [pandas.DataFrame]: the column labels and the rows of values. *)
Record DataFrame : Type := {
  columns : list string;
  values : list (list cell)
}.

(** What the loaders hand to the state: [(headers, rows)]. *)
Definition dataset : Type := list string * list (list string).

(** A CSV file as [pd.read_csv] meets it: either reading it raises (not
    decodable, no permission, ...), or it is a header record followed by
    data records, each a list of fields.  The records are the non-blank
    lines; a field is already classified by the reader's NA filter as
    missing or as text, and the labels are the names the reader gives the
    columns. *)
Inductive csv_file : Type :=
| Unreadable (e : exn)
| Records (labels : list string) (body : list (list cell)).

(** ** The world and the state *)

Record datetime : Type := {
  year : nat; month : nat; day : nat;
  hour : nat; minute : nat; second : nat
}.

Inductive io_op : Type := Makedirs | OpenFile | WriteFile.

Record World : Type := {
  (** the CSV files in the folder of the module, by file name *)
  csv_files : gmap string csv_file;
  (** the names passed to [pd.read_csv] so far, latest first *)
  reads : list string;
  (** the folder [prayer_requests]: [None] until it is created *)
  requests : option (gmap string string);
  (** [datetime.now()] *)
  clock : datetime;
  (** the operations the operating system refuses, with the error *)
  fault : io_op -> option exn
}.

(** The fields of [class State(rx.State)]. *)
Record State : Type := {
  password : string;
  show_error : bool;
  is_authenticated : bool;
  schedule_headers : list string;
  schedule_rows : list (list string);
  members_headers : list string;
  members_rows : list (list string);
  show_members : bool;
  show_schedule : bool;
  prayer_request_text : string
}.

Definition initial_state : State := {|
  password := "";
  show_error := false;
  is_authenticated := false;
  schedule_headers := [];
  schedule_rows := [];
  members_headers := [];
  members_rows := [];
  show_members := false;
  show_schedule := true;
  prayer_request_text := ""
|}.

(** The value a handler returns to the framework. *)
Inductive EventSpec : Type :=
| Redirect (path : string)
| ToastError (msg : string)
| ToastSuccess (msg : string).

Record Sys : Type := { self : State; world : World }.

(** ** The monad of handlers: state, world and exceptions *)

Definition M (A : Type) : Type := Sys -> result A * Sys.

Definition ret {A} (a : A) : M A := fun σ => (Ok a, σ).

Definition raise {A} (e : exn) : M A := fun σ => (Raise e, σ).

Definition bind {A B} (m : M A) (k : A -> M B) : M B :=
  fun σ =>
    match m σ with
    | (Ok a, σ') => k a σ'
    | (Raise e, σ') => (Raise e, σ')
    end.

(** [try: body except Exception as e: handler(e)] *)
Definition try_except {A} (body : M A) (handler : exn -> M A) : M A :=
  fun σ =>
    match body σ with
    | (Ok a, σ') => (Ok a, σ')
    | (Raise e, σ') => handler e σ'
    end.

Declare Scope py_scope.
Delimit Scope py_scope with py.
Notation "x <- m ;; k" := (bind m (fun x => k))
  (at level 100, m at next level, right associativity) : py_scope.
Notation "m ;;; k" := (bind m (fun _ => k))
  (at level 100, right associativity) : py_scope.
Local Open Scope py_scope.

Definition get_self : M State := fun σ => (Ok (self σ), σ).
Definition put_self (s : State) : M unit :=
  fun σ => (Ok tt, {| self := s; world := world σ |}).
Definition get_world : M World := fun σ => (Ok (world σ), σ).
Definition put_world (w : World) : M unit :=
  fun σ => (Ok tt, {| self := self σ; world := w |}).

(** ** Reading a CSV file *)

(** [_csv_path(filename)]: the file of that name in the folder of the
    module; [csv_files] is keyed by these names. *)
Definition _csv_path (filename : string) : string := filename.

(** The frame [pd.read_csv(path, dtype=str)] builds from the records of a
    file; pandas is a library the module imports, and this is its reader
    with the default options.  The table is as wide as the header, or as
    the first data record when that one is longer; the extra leading
    fields are then the index and are no part of the values.  A shorter
    record is filled with NaN; a later record with more fields than the
    table makes the reader raise (the default [on_bad_lines='error']).  A
    file without a header record has no columns to parse. *)
Definition frame_of_records (labels : list string) (body : list (list cell))
  : result DataFrame :=
  match labels with
  | [] => Raise (EmptyDataError "No columns to parse from file")
  | _ :: _ =>
      let n := length labels in
      let w := match body with [] => n | r :: _ => max n (length r) end in
      if existsb (fun r => w <? length r) body then
        Raise (ParserError "Error tokenizing data. C error: too many fields")
      else
        Ok {| columns := labels;
              values :=
                map (fun r => drop (w - n) (r ++ replicate (w - length r) NaN))
                    body |}
  end.

(** What reading the file at [path] gives: the frame, or the exception. *)
Definition read_frame (path : string) (f : option csv_file)
  : result DataFrame :=
  match f with
  | None =>
      Raise (FileNotFoundError
               ("[Errno 2] No such file or directory: '" +:+ path +:+ "'"))
  | Some (Unreadable e) => Raise e
  | Some (Records labels body) => frame_of_records labels body
  end.

Definition log_read (path : string) (w : World) : World :=
  {| csv_files := csv_files w; reads := path :: reads w;
     requests := requests w; clock := clock w; fault := fault w |}.

(** A value or an exception computed outside the monad. *)
Definition lift {A} (r : result A) : M A :=
  match r with
  | Ok a => ret a
  | Raise e => raise e
  end.

(** [pd.read_csv(path, dtype=str)] *)
Definition pd_read_csv (path : string) : M DataFrame :=
  w <- get_world ;;
  put_world (log_read path w) ;;;
  lift (read_frame path (csv_files w !! path)).

(** [str(cell) if pd.notna(cell) and cell != 'nan' else ""] *)
Definition cell_text (c : cell) : string :=
  match c with
  | NaN => ""
  | Cell s => if String.eqb s "nan" then "" else s
  end.

(** [_read_csv_safe]: the labels are strings already, so [str(col)] is
    [col]; [df.iterrows()] yields the rows of values in order. *)
Definition _read_csv_safe (path : string) : M dataset :=
  df <- pd_read_csv path ;;
  let headers := columns df in
  let rows := map (fun row => map cell_text row) (values df) in
  ret (headers, rows).

(** ** The loaders *)

Definition schedule_fallback : dataset :=
  (["Date"; "Event"],
   [ ["09/12/2025"; "Opening CG Gathering"];
     ["09/19/2025"; "Discussion"];
     ["Error"; "Could not load schedule.csv - using fallback data"] ]).

Definition members_fallback : dataset := (["Name"; "Role"], []).

Definition load_schedule_from_csv : M dataset :=
  try_except
    (hr <- _read_csv_safe (_csv_path "schedule.csv") ;;
     let '(headers, rows) := hr in
     ret (headers, rows))
    (fun e => ret schedule_fallback).

(** [x in l] *)
Definition list_in (x : string) (l : list string) : bool :=
  existsb (String.eqb x) l.

(** [l.index(x)]: the first position of [x], [None] when Python raises
    ValueError. *)
Fixpoint list_index (x : string) (l : list string) : option nat :=
  match l with
  | [] => None
  | y :: r => if String.eqb y x then Some 0 else S <$> list_index x r
  end.

(** The body of the loop over [rows] in [load_members_from_csv]. *)
Definition format_contact (contact_index : nat) (row : list string)
  : list string :=
  match row !! contact_index with
  | Some v =>
      if Str.truthy v then <[contact_index := _format_phone_number v]> row
      else row
  | None => row
  end.

Definition load_members_from_csv : M dataset :=
  try_except
    (hr <- _read_csv_safe (_csv_path "members.csv") ;;
     let '(headers, rows) := hr in
     if list_in "Contact" headers then
       match list_index "Contact" headers with
       | Some contact_index =>
           ret (headers, map (format_contact contact_index) rows)
       | None => raise (ValueError "'Contact' is not in list")
       end
     else ret (headers, rows))
    (fun e => ret members_fallback).

(** ** Assignments to the fields of [self] *)

Definition set_password_field (v : string) (s : State) : State :=
  {| password := v; show_error := show_error s;
     is_authenticated := is_authenticated s;
     schedule_headers := schedule_headers s; schedule_rows := schedule_rows s;
     members_headers := members_headers s; members_rows := members_rows s;
     show_members := show_members s; show_schedule := show_schedule s;
     prayer_request_text := prayer_request_text s |}.

Definition set_show_error (v : bool) (s : State) : State :=
  {| password := password s; show_error := v;
     is_authenticated := is_authenticated s;
     schedule_headers := schedule_headers s; schedule_rows := schedule_rows s;
     members_headers := members_headers s; members_rows := members_rows s;
     show_members := show_members s; show_schedule := show_schedule s;
     prayer_request_text := prayer_request_text s |}.

Definition set_is_authenticated (v : bool) (s : State) : State :=
  {| password := password s; show_error := show_error s;
     is_authenticated := v;
     schedule_headers := schedule_headers s; schedule_rows := schedule_rows s;
     members_headers := members_headers s; members_rows := members_rows s;
     show_members := show_members s; show_schedule := show_schedule s;
     prayer_request_text := prayer_request_text s |}.

Definition set_schedule_headers (v : list string) (s : State) : State :=
  {| password := password s; show_error := show_error s;
     is_authenticated := is_authenticated s;
     schedule_headers := v; schedule_rows := schedule_rows s;
     members_headers := members_headers s; members_rows := members_rows s;
     show_members := show_members s; show_schedule := show_schedule s;
     prayer_request_text := prayer_request_text s |}.

Definition set_schedule_rows (v : list (list string)) (s : State) : State :=
  {| password := password s; show_error := show_error s;
     is_authenticated := is_authenticated s;
     schedule_headers := schedule_headers s; schedule_rows := v;
     members_headers := members_headers s; members_rows := members_rows s;
     show_members := show_members s; show_schedule := show_schedule s;
     prayer_request_text := prayer_request_text s |}.

Definition set_members_headers (v : list string) (s : State) : State :=
  {| password := password s; show_error := show_error s;
     is_authenticated := is_authenticated s;
     schedule_headers := schedule_headers s; schedule_rows := schedule_rows s;
     members_headers := v; members_rows := members_rows s;
     show_members := show_members s; show_schedule := show_schedule s;
     prayer_request_text := prayer_request_text s |}.

Definition set_members_rows (v : list (list string)) (s : State) : State :=
  {| password := password s; show_error := show_error s;
     is_authenticated := is_authenticated s;
     schedule_headers := schedule_headers s; schedule_rows := schedule_rows s;
     members_headers := members_headers s; members_rows := v;
     show_members := show_members s; show_schedule := show_schedule s;
     prayer_request_text := prayer_request_text s |}.

Definition set_show_members (v : bool) (s : State) : State :=
  {| password := password s; show_error := show_error s;
     is_authenticated := is_authenticated s;
     schedule_headers := schedule_headers s; schedule_rows := schedule_rows s;
     members_headers := members_headers s; members_rows := members_rows s;
     show_members := v; show_schedule := show_schedule s;
     prayer_request_text := prayer_request_text s |}.

Definition set_show_schedule (v : bool) (s : State) : State :=
  {| password := password s; show_error := show_error s;
     is_authenticated := is_authenticated s;
     schedule_headers := schedule_headers s; schedule_rows := schedule_rows s;
     members_headers := members_headers s; members_rows := members_rows s;
     show_members := show_members s; show_schedule := v;
     prayer_request_text := prayer_request_text s |}.

Definition set_prayer_request_text (v : string) (s : State) : State :=
  {| password := password s; show_error := show_error s;
     is_authenticated := is_authenticated s;
     schedule_headers := schedule_headers s; schedule_rows := schedule_rows s;
     members_headers := members_headers s; members_rows := members_rows s;
     show_members := show_members s; show_schedule := show_schedule s;
     prayer_request_text := v |}.

(** [self.field = v] *)
Definition assign (f : State -> State) : M unit :=
  s <- get_self ;; put_self (f s).

(** ** The file system under [prayer_requests] and the clock *)

Definition set_requests (d : option (gmap string string)) (w : World) : World :=
  {| csv_files := csv_files w; reads := reads w; requests := d;
     clock := clock w; fault := fault w |}.

(** [os.makedirs(dir_path, exist_ok=True)] *)
Definition os_makedirs : M unit :=
  w <- get_world ;;
  match fault w Makedirs with
  | Some e => raise e
  | None => put_world (set_requests (Some (default ∅ (requests w))) w)
  end.

(** [datetime.now()] *)
Definition datetime_now : M datetime :=
  w <- get_world ;; ret (clock w).

Definition digit (n : nat) : ascii := ascii_of_nat (48 + n mod 10).

Definition two_digits (n : nat) : string :=
  String (digit (n / 10)) (String (digit n) EmptyString).

Definition four_digits (n : nat) : string :=
  String (digit (n / 1000)) (String (digit (n / 100)) (two_digits n)).

(** [now.strftime("%m_%d_%Y_%H_%M_%S.txt")] *)
Definition strftime (now : datetime) : string :=
  two_digits (month now) +:+ "_" +:+ two_digits (day now) +:+ "_"
  +:+ four_digits (year now) +:+ "_" +:+ two_digits (hour now) +:+ "_"
  +:+ two_digits (minute now) +:+ "_" +:+ two_digits (second now) +:+ ".txt".

(** [with open(filepath, "w", encoding="utf-8") as f: f.write(text)]:
    opening creates the file or empties the one of that name; a write
    the system refuses leaves it empty. *)
Definition write_text (filename text : string) : M unit :=
  w <- get_world ;;
  match requests w with
  | None =>
      raise (FileNotFoundError
               ("[Errno 2] No such file or directory: '" +:+ filename +:+ "'"))
  | Some dir =>
      match fault w OpenFile with
      | Some e => raise e
      | None =>
          match fault w WriteFile with
          | Some e =>
              put_world (set_requests (Some (<[filename := ""]> dir)) w) ;;;
              raise e
          | None =>
              put_world (set_requests (Some (<[filename := text]> dir)) w)
          end
      end
  end.

(** ** The event handlers of [State] *)

(** Truth value of a list: [bool(l)], false exactly for [[]]. *)
Definition nonempty {A} (l : list A) : bool :=
  match l with [] => false | _ :: _ => true end.

Definition toggle_members : M (option EventSpec) :=
  assign (set_show_members true) ;;;
  assign (set_show_schedule false) ;;;
  ret None.

Definition toggle_schedule : M (option EventSpec) :=
  assign (set_show_members false) ;;;
  assign (set_show_schedule true) ;;;
  ret None.

Definition set_prayer_request (text : string) : M (option EventSpec) :=
  assign (set_prayer_request_text text) ;;;
  ret None.

Definition submit_prayer_request : M (option EventSpec) :=
  s <- get_self ;;
  let text := Str.strip (prayer_request_text s) in
  if negb (Str.truthy text) then
    ret (Some (ToastError "Please enter a prayer request."))
  else
    try_except
      (os_makedirs ;;;
       now <- datetime_now ;;
       let filename := strftime now in
       write_text filename text ;;;
       assign (set_prayer_request_text "") ;;;
       ret (Some (ToastSuccess "Prayer request submitted and saved.")))
      (fun e =>
         ret (Some (ToastError ("Error saving prayer request: " +:+ str_exn e)))).

Definition load_data_on_mount : M (option EventSpec) :=
  s <- get_self ;;
  (if negb (nonempty (schedule_headers s)) || negb (nonempty (schedule_rows s))
   then
     hr <- load_schedule_from_csv ;;
     let '(h, r) := hr in
     assign (set_schedule_headers h) ;;;
     assign (set_schedule_rows r)
   else ret tt) ;;;
  s <- get_self ;;
  (if negb (nonempty (members_headers s)) || negb (nonempty (members_rows s))
   then
     hr <- load_members_from_csv ;;
     let '(h, r) := hr in
     assign (set_members_headers h) ;;;
     assign (set_members_rows r)
   else ret tt) ;;;
  ret None.

Definition set_password (value : string) : M (option EventSpec) :=
  assign (set_password_field value) ;;;
  s <- get_self ;;
  (if show_error s then assign (set_show_error false) else ret tt) ;;;
  ret None.

(** The keyword compared in [submit_password]. *)
Definition secret : string := "2ndstreet".

Definition submit_password : M (option EventSpec) :=
  s <- get_self ;;
  if String.eqb (password s) secret then
    assign (set_is_authenticated true) ;;;
    ret (Some (Redirect "/home"))
  else
    assign (set_show_error true) ;;;
    ret None.

Definition handle_key_down (key : string) : M (option EventSpec) :=
  if String.eqb key "Enter" then submit_password else ret None.

Definition logout : M (option EventSpec) :=
  assign (set_is_authenticated false) ;;;
  assign (set_password_field "") ;;;
  assign (set_show_error false) ;;;
  ret (Some (Redirect "/")).

Definition check_auth_and_redirect : M (option EventSpec) :=
  s <- get_self ;;
  if negb (is_authenticated s) then ret (Some (Redirect "/")) else ret None.

(** The events the pages bind to the handlers. *)
Inductive Event : Type :=
| SetPassword (value : string)
| SubmitPassword
| HandleKeyDown (key : string)
| Logout
| CheckAuthAndRedirect
| ToggleMembers
| ToggleSchedule
| SetPrayerRequest (text : string)
| SubmitPrayerRequest
| LoadDataOnMount.

Definition handle (ev : Event) : M (option EventSpec) :=
  match ev with
  | SetPassword value => set_password value
  | SubmitPassword => submit_password
  | HandleKeyDown key => handle_key_down key
  | Logout => logout
  | CheckAuthAndRedirect => check_auth_and_redirect
  | ToggleMembers => toggle_members
  | ToggleSchedule => toggle_schedule
  | SetPrayerRequest text => set_prayer_request text
  | SubmitPrayerRequest => submit_prayer_request
  | LoadDataOnMount => load_data_on_mount
  end.

(** The session states: the initial one, and the state any handler leaves
    from a session state, whatever the world is at that moment. *)
Inductive reachable : State -> Prop :=
| reachable_init : reachable initial_state
| reachable_step s ev w :
    reachable s ->
    reachable (self (snd (handle ev {| self := s; world := w |}))).

(** A world for the examples: no CSV file, no folder, nothing refused. *)
Definition bare_world : World := {|
  csv_files := ∅;
  reads := [];
  requests := None;
  clock := {| year := 2025; month := 9; day := 12;
              hour := 7; minute := 5; second := 30 |};
  fault := fun _ => None
|}.

Definition run {A} (m : M A) (s : State) (w : World) : result A * Sys :=
  m {| self := s; world := w |}.

(** ** What the loaders compute, without the monad *)

Definition dataset_of_frame (df : DataFrame) : dataset :=
  (columns df, map (fun row => map cell_text row) (values df)).

Definition contacts_formatted (d : dataset) : dataset :=
  match list_index "Contact" (fst d) with
  | Some contact_index => (fst d, map (format_contact contact_index) (snd d))
  | None => d
  end.

Definition schedule_of (r : result DataFrame) : dataset :=
  match r with
  | Ok df => dataset_of_frame df
  | Raise _ => schedule_fallback
  end.

Definition members_of (r : result DataFrame) : dataset :=
  match r with
  | Ok df => contacts_formatted (dataset_of_frame df)
  | Raise _ => members_fallback
  end.

(** Every row is as wide as the header. *)
Definition rectangular (d : dataset) : Prop :=
  Forall (fun row => length row = length (fst d)) (snd d).

(** The world [w] with the file [f] under the name [path]. *)
Definition with_file (path : string) (f : csv_file) (w : World) : World :=
  {| csv_files := <[path := f]> (csv_files w); reads := reads w;
     requests := requests w; clock := clock w; fault := fault w |}.

(** A cell with the text "nan" read as a missing one. *)
Definition nan_to_missing (c : cell) : cell :=
  match c with
  | NaN => NaN
  | Cell s => if String.eqb s "nan" then NaN else Cell s
  end.

(** ** The loader in the words of the specification *)

(** A row brought to [n] cells: a shorter one is filled with empty
    strings, a longer one loses the cells beyond the [n]th. *)
Definition normalize_row (n : nat) (row : list string) : list string :=
  take n (row ++ replicate (n - length row) "").

(** The table the specification describes for the records of a file:
    every record read, as strings, normalised to the width of the header. *)
Definition normalized_load (labels : list string) (body : list (list cell))
  : dataset :=
  (labels,
   map (fun r => normalize_row (length labels) (map cell_text r)) body).

(** ** Sample files *)

(** A schedule whose second data record has a field too many. *)
Definition overlong_schedule : csv_file :=
  Records ["Date"; "Event"]
          [ [Cell "09/12/2025"; Cell "Opening"];
            [Cell "09/19/2025"; Cell "Discussion"; Cell "Room 2"] ].

(** A members file whose second record stops after the name and whose
    third has no contact. *)
Definition short_members : csv_file :=
  Records ["Name"; "Contact"]
          [ [Cell "Ann"; Cell "123-456-7890"];
            [Cell "Bob"];
            [Cell "Cy"; NaN] ].

(** ** What a mount does to one table, without the monad *)

Definition mount_schedule (σ : Sys) : Sys :=
  if negb (nonempty (schedule_headers (self σ)))
     || negb (nonempty (schedule_rows (self σ)))
  then
    let d := schedule_of (read_frame "schedule.csv"
                            (csv_files (world σ) !! "schedule.csv")) in
    {| self := set_schedule_rows (snd d) (set_schedule_headers (fst d) (self σ));
       world := log_read "schedule.csv" (world σ) |}
  else σ.

Definition mount_members (σ : Sys) : Sys :=
  if negb (nonempty (members_headers (self σ)))
     || negb (nonempty (members_rows (self σ)))
  then
    let d := members_of (read_frame "members.csv"
                           (csv_files (world σ) !! "members.csv")) in
    {| self := set_members_rows (snd d) (set_members_headers (fst d) (self σ));
       world := log_read "members.csv" (world σ) |}
  else σ.

(** How many times [pd.read_csv] was called on [path]. *)
Definition loads (path : string) (w : World) : nat :=
  length (List.filter (String.eqb path) (reads w)).

(** The system at the start of a session in the world [w]. *)
Definition start (w : World) : Sys := {| self := initial_state; world := w |}.

(** The system in the state [s] and the bare world. *)
Definition start' (s : State) : Sys := {| self := s; world := bare_world |}.

(** The fields the data and prayer handlers leave alone. *)
Definition auth_view (s : State) : string * bool * bool * bool * bool :=
  (password s, show_error s, is_authenticated s, show_members s,
   show_schedule s).

(** The error of the first step of saving that the system refuses: making
    the folder, opening the file, writing it. *)
Definition refused (w : World) : option exn :=
  match fault w Makedirs with
  | Some e => Some e
  | None =>
      match fault w OpenFile with
      | Some e => Some e
      | None => fault w WriteFile
      end
  end.

Definition io_op_eqb (a b : io_op) : bool :=
  match a, b with
  | Makedirs, Makedirs => true
  | OpenFile, OpenFile => true
  | WriteFile, WriteFile => true
  | _, _ => false
  end.

(** Why a submission of the draft fails, when it does: the draft is
    blank, or the system refuses a step of saving. *)
Inductive failure : Type :=
| BlankDraft
| SaveRefused (e : exn).

Definition submit_failure (s : State) (w : World) : option failure :=
  if Str.truthy (Str.strip (prayer_request_text s)) then
    match refused w with
    | Some e => Some (SaveRefused e)
    | None => None
    end
  else Some BlankDraft.

Definition failure_toast (f : failure) : EventSpec :=
  match f with
  | BlankDraft => ToastError "Please enter a prayer request."
  | SaveRefused e => ToastError ("Error saving prayer request: " +:+ str_exn e)
  end.

(** The world [w] where the system refuses [op] with [e]. *)
Definition with_fault (op : io_op) (e : exn) (w : World) : World :=
  {| csv_files := csv_files w; reads := reads w; requests := requests w;
     clock := clock w;
     fault := fun o => if io_op_eqb o op then Some e else fault w o |}.

(** ** Sample states *)

(** The keyword typed while the error flag is up. *)
Definition flagged_state : State :=
  set_show_error true (set_password_field secret initial_state).

(** Logged in, then a wrong keyword typed on the login page. *)
Definition logged_in_retyping : State :=
  let typed := self (snd (handle (SetPassword secret) (start' initial_state))) in
  let logged_in := self (snd (handle SubmitPassword (start' typed))) in
  self (snd (handle (SetPassword "guess") (start' logged_in))).

(** A draft with blanks around the text. *)
Definition drafted_state : State :=
  set_prayer_request_text "  Pray for Ann  " initial_state.

(** The system lets the folder be made and refuses to open a file in it. *)
Definition denied_world : World :=
  with_fault OpenFile (OSError "[Errno 13] Permission denied") bare_world.

(** The folder holds a request saved in the second the clock shows. *)
Definition taken_world : World :=
  set_requests (Some {[ "09_12_2025_07_05_30.txt" := "an earlier request" ]})
               bare_world.

(** ** Further definitions used by the properties *)

(** [members_count]: the computed var shown on the Members button. *)
Definition members_count (s : State) : nat := length (members_rows s).

(** A date and time [datetime.now()] can return, with a year of four
    digits. *)
Definition valid_datetime (t : datetime) : Prop :=
  1000 <= year t /\ year t < 10 * 1000
  /\ 1 <= month t <= 12 /\ 1 <= day t <= 31
  /\ hour t <= 23 /\ minute t <= 59 /\ second t <= 59.

(** The world [w] at the time [t]. *)
Definition set_clock (t : datetime) (w : World) : World :=
  {| csv_files := csv_files w; reads := reads w; requests := requests w;
     clock := t; fault := fault w |}.

(** The string begins, resp. ends, with a whitespace character. *)
Definition starts_space (s : string) : bool :=
  match s with
  | EmptyString => false
  | String c _ => Str.isspace c
  end.

Definition ends_space (s : string) : bool := starts_space (Str.rev s).

(** The four table fields of the state. *)
Definition tables (s : State)
  : list string * list (list string) * list string * list (list string) :=
  (schedule_headers s, schedule_rows s, members_headers s, members_rows s).

(** A table as the state holds it is well formed: every row is as wide
    as the header, and there are rows only under a header. *)
Definition table_ok (headers : list string) (rows : list (list string)) : Prop :=
  rectangular (headers, rows) /\ (headers = [] -> rows = []).

(** The fields the login handlers leave alone: the tables, the view and
    the draft. *)
Definition beyond_login (s : State)
  : list string * list (list string) * list string * list (list string)
    * bool * bool * string :=
  (tables s, show_members s, show_schedule s, prayer_request_text s).

(** The two tables of the state, each with its file. *)
Inductive table : Type := Schedule | Members.

Definition headers_of (t : table) (s : State) : list string :=
  match t with
  | Schedule => schedule_headers s
  | Members => members_headers s
  end.

Definition rows_of (t : table) (s : State) : list (list string) :=
  match t with
  | Schedule => schedule_rows s
  | Members => members_rows s
  end.

Definition file_of (t : table) : string :=
  match t with
  | Schedule => "schedule.csv"
  | Members => "members.csv"
  end.

(** A file with a cell reading "nan", a missing cell, a record that stops
    before the last column and an ordinary cell. *)
Definition nan_sample : csv_file :=
  Records ["Name"; "Role"]
          [ [Cell "nan"; NaN]; [Cell "Ann"]; [Cell "Bob"; Cell "host"] ].

(** * Properties *)

(** ** Strings *)

Lemma append_cons (c : ascii) (a b : string) :
  String c a +:+ b = String c (a +:+ b).
Proof. reflexivity. Qed.

Section StrFacts.

Variable p : ascii -> bool.

Lemma filter_app (a b : string) :
  Str.filter p (a +:+ b) = Str.filter p a +:+ Str.filter p b.
Proof.
  induction a as [|c a IH]; [reflexivity|].
  rewrite append_cons; simpl.
  destruct (p c); [rewrite append_cons|]; now rewrite IH.
Qed.

Lemma filter_filter (s : string) :
  Str.filter p (Str.filter p s) = Str.filter p s.
Proof.
  induction s as [|c s IH]; simpl; [reflexivity|].
  destruct (p c) eqn:Hc; simpl; [rewrite Hc, IH|]; easy.
Qed.

(** [Str.filter] keeps the characters that pass the test, in order. *)
Lemma filter_list (s : string) :
  list_ascii_of_string (Str.filter p s)
  = List.filter p (list_ascii_of_string s).
Proof.
  induction s as [|c s IH]; simpl; [reflexivity|].
  destruct (p c); simpl; now rewrite IH.
Qed.

End StrFacts.

Lemma str_take_drop (n : nat) (s : string) : Str.take n s +:+ Str.drop n s = s.
Proof.
  revert s; induction n as [|n IH]; intros [|c s]; simpl; try reflexivity.
  rewrite append_cons; f_equal; apply IH.
Qed.

Lemma str_drop_drop (n m : nat) (s : string) :
  Str.drop n (Str.drop m s) = Str.drop (m + n) s.
Proof.
  revert s; induction m as [|m IH]; intros s; simpl; [reflexivity|].
  destruct s as [|c s]; [now destruct n|apply IH].
Qed.

Lemma str_length_take (n : nat) (s : string) :
  String.length (Str.take n s) = min n (String.length s).
Proof.
  revert s; induction n as [|n IH]; intros [|c s]; simpl; try reflexivity.
  now rewrite IH.
Qed.

Lemma str_length_drop (n : nat) (s : string) :
  String.length (Str.drop n s) = String.length s - n.
Proof.
  revert s; induction n as [|n IH]; intros [|c s]; simpl; try reflexivity.
  apply IH.
Qed.

(** The three slices of the formatter put the string together again. *)
Lemma slices_cover (d : string) :
  d = Str.slice 0 3 d +:+ Str.slice 3 6 d +:+ Str.drop 6 d.
Proof.
  unfold Str.slice.
  change (Str.drop 0 d) with d.
  change (6 - 3) with 3; change (3 - 0) with 3.
  rewrite <- (str_take_drop 3 d) at 1; f_equal.
  rewrite <- (str_take_drop 3 (Str.drop 3 d)) at 1; f_equal.
  apply str_drop_drop.
Qed.

Example strip_both : Str.strip "  a b  " = "a b".
Proof. reflexivity. Qed.

Example strip_blank : Str.strip (String "009" (String "010" " ")) = "".
Proof. reflexivity. Qed.

Example strftime_sample :
  strftime {| year := 2025; month := 9; day := 12;
              hour := 7; minute := 5; second := 30 |}
  = "09_12_2025_07_05_30.txt".
Proof. reflexivity. Qed.

(** ** The phone formatter *)

(** The punctuation the formatter adds holds no digit. *)
Lemma digits_of_formatted (a b c : string) :
  Str.filter Str.isdigit ("(" +:+ a +:+ ") " +:+ b +:+ "-" +:+ c)
  = Str.filter Str.isdigit (a +:+ b +:+ c).
Proof.
  rewrite !filter_app.
  change (Str.filter Str.isdigit "(") with EmptyString.
  change (Str.filter Str.isdigit ") ") with EmptyString.
  change (Str.filter Str.isdigit "-") with EmptyString.
  reflexivity.
Qed.

Lemma format_ten (phone : string) :
  String.length (Str.filter Str.isdigit phone) = 10 ->
  _format_phone_number phone
  = "(" +:+ Str.slice 0 3 (Str.filter Str.isdigit phone) +:+ ") "
        +:+ Str.slice 3 6 (Str.filter Str.isdigit phone) +:+ "-"
        +:+ Str.drop 6 (Str.filter Str.isdigit phone).
Proof. intros H; unfold _format_phone_number; rewrite H; reflexivity. Qed.

Lemma format_other (phone : string) :
  String.length (Str.filter Str.isdigit phone) <> 10 ->
  _format_phone_number phone = phone.
Proof.
  intros H; unfold _format_phone_number.
  destruct (Nat.eqb_spec (String.length (Str.filter Str.isdigit phone)) 10);
    [contradiction|reflexivity].
Qed.

(** C7: the formatter keeps the digit characters of its argument; when
    there are exactly ten it returns them as "(AAA) BBB-CCCC", three, three
    and four digits in their order, and otherwise it returns its argument
    as it is.  The three sample numbers of the specification come out as
    stated. *)
Theorem format_phone_number_spec :
  (forall phone : string,
      let digits := Str.filter Str.isdigit phone in
      (exists a b c : string,
          digits = a +:+ b +:+ c
          /\ String.length a = 3 /\ String.length b = 3 /\ String.length c = 4
          /\ _format_phone_number phone
             = "(" +:+ a +:+ ") " +:+ b +:+ "-" +:+ c)
      \/ (String.length digits <> 10 /\ _format_phone_number phone = phone))
  /\ _format_phone_number "1234567890" = "(123) 456-7890"
  /\ _format_phone_number "123-456-7890" = "(123) 456-7890"
  /\ _format_phone_number "12345" = "12345".
Proof.
  split; [|repeat split; reflexivity].
  intros phone digits.
  destruct (Nat.eq_dec (String.length digits) 10) as [Hten|Hnot].
  - left.
    exists (Str.slice 0 3 digits), (Str.slice 3 6 digits), (Str.drop 6 digits).
    split; [apply slices_cover|].
    unfold Str.slice; rewrite !str_length_take, !str_length_drop, Hten.
    repeat split; try reflexivity.
    now apply format_ten.
  - right; split; [exact Hnot|now apply format_other].
Qed.

(** C8: formatting a formatted number changes nothing. *)
Theorem format_phone_number_idempotent (s : string) :
  _format_phone_number (_format_phone_number s) = _format_phone_number s.
Proof.
  destruct (Nat.eq_dec (String.length (Str.filter Str.isdigit s)) 10)
    as [Hten|Hnot].
  - rewrite (format_ten s Hten).
    set (d := Str.filter Str.isdigit s) in *.
    assert (Hd : Str.filter Str.isdigit
                   ("(" +:+ Str.slice 0 3 d +:+ ") " +:+ Str.slice 3 6 d
                        +:+ "-" +:+ Str.drop 6 d) = d).
    { rewrite digits_of_formatted, <- slices_cover.
      apply filter_filter. }
    rewrite format_ten; rewrite Hd; [reflexivity|exact Hten].
  - rewrite !(format_other s Hnot); reflexivity.
Qed.

Example format_superscript :
  _format_phone_number (String "178" "123456789")
  = "(" +:+ String "178" "12" +:+ ") 345-6789".
Proof. reflexivity. Qed.

(** ** The loaders *)

Lemma read_csv_safe_run (path : string) (σ : Sys) :
  _read_csv_safe path σ
  = (match read_frame path (csv_files (world σ) !! path) with
     | Ok df => Ok (dataset_of_frame df)
     | Raise e => Raise e
     end,
     {| self := self σ; world := log_read path (world σ) |}).
Proof.
  unfold _read_csv_safe, pd_read_csv, bind, get_world, put_world; simpl.
  destruct (read_frame path (csv_files (world σ) !! path)); reflexivity.
Qed.

Lemma list_index_in (x : string) (l : list string) :
  list_in x l = true -> is_Some (list_index x l).
Proof.
  induction l as [|y l IH]; simpl; [discriminate|].
  rewrite (String.eqb_sym x y).
  destruct (String.eqb y x); [eauto|].
  intros H; destruct (IH H) as [i ->]; simpl; eauto.
Qed.

Lemma list_index_not_in (x : string) (l : list string) :
  list_in x l = false -> list_index x l = None.
Proof.
  induction l as [|y l IH]; simpl; [reflexivity|].
  rewrite (String.eqb_sym x y).
  destruct (String.eqb y x); [discriminate|].
  intros H; rewrite (IH H); reflexivity.
Qed.

Lemma load_schedule_run (σ : Sys) :
  load_schedule_from_csv σ
  = (Ok (schedule_of (read_frame "schedule.csv"
                        (csv_files (world σ) !! "schedule.csv"))),
     {| self := self σ; world := log_read "schedule.csv" (world σ) |}).
Proof.
  unfold load_schedule_from_csv, try_except, bind, _csv_path.
  rewrite read_csv_safe_run.
  destruct (read_frame _ _) as [df|e]; reflexivity.
Qed.

Lemma load_members_run (σ : Sys) :
  load_members_from_csv σ
  = (Ok (members_of (read_frame "members.csv"
                       (csv_files (world σ) !! "members.csv"))),
     {| self := self σ; world := log_read "members.csv" (world σ) |}).
Proof.
  unfold load_members_from_csv, try_except, bind, _csv_path.
  rewrite read_csv_safe_run.
  destruct (read_frame _ _) as [df|e]; [|reflexivity].
  unfold members_of, contacts_formatted, dataset_of_frame; simpl.
  destruct (list_in "Contact" (columns df)) eqn:Hin.
  - destruct (list_index_in _ _ Hin) as [i Hi]; rewrite Hi; reflexivity.
  - rewrite (list_index_not_in _ _ Hin); reflexivity.
Qed.

(** The frame built from the records of a file is rectangular. *)
Lemma frame_of_records_rect (labels : list string) (body : list (list cell))
      (df : DataFrame) :
  frame_of_records labels body = Ok df ->
  Forall (fun row => length row = length (columns df)) (values df).
Proof.
  unfold frame_of_records.
  destruct labels as [|l labels]; [discriminate|].
  set (n := length (l :: labels)).
  set (w := match body with [] => n | r :: _ => max n (length r) end).
  assert (Hw : n <= w) by (subst w; destruct body; lia).
  destruct (existsb _ body) eqn:Hlong; [discriminate|].
  intros [= <-]; simpl.
  apply Forall_map, Forall_forall; intros r Hr.
  assert (Hlen : (w <? length r) = false).
  { destruct (w <? length r) eqn:E; [|reflexivity].
    rewrite <- Hlong; symmetry; apply existsb_exists.
    exists r; split; [apply list_elem_of_In; exact Hr|exact E]. }
  apply Nat.ltb_ge in Hlen.
  rewrite length_drop, length_app, length_replicate.
  assert (Hn : n = S (length labels)) by reflexivity.
  clearbody w n; lia.
Qed.

Lemma read_frame_rect (path : string) (f : option csv_file) (df : DataFrame) :
  read_frame path f = Ok df ->
  Forall (fun row => length row = length (columns df)) (values df).
Proof.
  destruct f as [[e|labels body]|]; simpl; try discriminate.
  apply frame_of_records_rect.
Qed.

Lemma dataset_of_frame_rect (df : DataFrame) :
  Forall (fun row => length row = length (columns df)) (values df) ->
  rectangular (dataset_of_frame df).
Proof.
  unfold rectangular, dataset_of_frame; simpl; intros H.
  apply Forall_map; eapply Forall_impl; [exact H|].
  intros row Hrow; simpl; now rewrite length_map.
Qed.

Lemma length_format_contact (i : nat) (row : list string) :
  length (format_contact i row) = length row.
Proof.
  unfold format_contact.
  destruct (row !! i) as [v|]; [|reflexivity].
  destruct (Str.truthy v); [apply length_insert|reflexivity].
Qed.

Lemma contacts_formatted_rect (d : dataset) :
  rectangular d -> rectangular (contacts_formatted d).
Proof.
  unfold rectangular, contacts_formatted.
  destruct (list_index "Contact" (fst d)) as [i|]; [|trivial].
  simpl; intros H; apply Forall_map; eapply Forall_impl; [exact H|].
  intros row Hrow; simpl; now rewrite length_format_contact.
Qed.

Lemma schedule_of_rect (path : string) (f : option csv_file) :
  rectangular (schedule_of (read_frame path f)).
Proof.
  destruct (read_frame path f) as [df|e] eqn:Hread; simpl.
  - eapply dataset_of_frame_rect, read_frame_rect; eauto.
  - repeat constructor.
Qed.

Lemma members_of_rect (path : string) (f : option csv_file) :
  rectangular (members_of (read_frame path f)).
Proof.
  destruct (read_frame path f) as [df|e] eqn:Hread; simpl.
  - eapply contacts_formatted_rect, dataset_of_frame_rect, read_frame_rect; eauto.
  - constructor.
Qed.

(** The files the reader fails on: none under the name, one that cannot
    be read, one without a header record, one with a record longer than
    the table after the first. *)
Lemma read_frame_fails (path : string) :
  (exists e, read_frame path None = Raise e)
  /\ (forall e, read_frame path (Some (Unreadable e)) = Raise e)
  /\ (forall body, exists e, read_frame path (Some (Records [] body)) = Raise e)
  /\ (forall l labels r body long,
         length (l :: labels) `max` length r < length long ->
         long ∈ body ->
         exists e,
           read_frame path (Some (Records (l :: labels) (r :: body))) = Raise e).
Proof.
  split; [eexists; reflexivity|].
  split; [reflexivity|].
  split; [eexists; reflexivity|].
  intros l labels r body long Hlong Hin.
  unfold read_frame, frame_of_records.
  set (w := length (l :: labels) `max` length r) in *.
  destruct (existsb (fun r0 => w <? length r0) (r :: body)) eqn:H;
    [eexists; reflexivity|].
  exfalso.
  assert (H' : existsb (fun r0 => w <? length r0) (r :: body) = true);
    [|congruence].
  apply existsb_exists; exists long; split.
  - right; apply list_elem_of_In; exact Hin.
  - apply Nat.ltb_lt; exact Hlong.
Qed.


Example load_short_members :
  fst (run load_members_from_csv initial_state
           (with_file "members.csv" short_members bare_world))
  = Ok (["Name"; "Contact"],
        [ ["Ann"; "(123) 456-7890"]; ["Bob"; ""]; ["Cy"; ""] ]).
Proof. vm_compute. reflexivity. Qed.

Example load_unreadable_schedule :
  fst (run load_schedule_from_csv initial_state
           (with_file "schedule.csv"
                      (Unreadable (UnicodeDecodeError "invalid start byte"))
                      bare_world))
  = Ok schedule_fallback.
Proof. vm_compute. reflexivity. Qed.

Example load_missing_members :
  fst (run load_members_from_csv initial_state bare_world)
  = Ok members_fallback.
Proof. vm_compute. reflexivity. Qed.

(** C3, as stated, fails: [_read_csv_safe] raises when the file is
    missing, and a record with a field too many is not cut to the width of
    the header: the read fails and the loader returns its fallback, not
    the normalised table. *)
Lemma load_not_total_no_truncation :
  fst (run (_read_csv_safe (_csv_path "schedule.csv")) initial_state bare_world)
  = Raise (FileNotFoundError
             "[Errno 2] No such file or directory: 'schedule.csv'")
  /\ normalized_load
       ["Date"; "Event"]
       [ [Cell "09/12/2025"; Cell "Opening"];
         [Cell "09/19/2025"; Cell "Discussion"; Cell "Room 2"] ]
     = (["Date"; "Event"],
        [ ["09/12/2025"; "Opening"]; ["09/19/2025"; "Discussion"] ])
  /\ fst (run load_schedule_from_csv initial_state
              (with_file "schedule.csv" overlong_schedule bare_world))
     = Ok schedule_fallback
  /\ fst (run load_schedule_from_csv initial_state
              (with_file "schedule.csv" overlong_schedule bare_world))
     <> Ok (normalized_load
              ["Date"; "Event"]
              [ [Cell "09/12/2025"; Cell "Opening"];
                [Cell "09/19/2025"; Cell "Discussion"; Cell "Room 2"] ]).
Proof.
  repeat split; try (vm_compute; reflexivity).
  vm_compute; discriminate.
Qed.

(** C3, amended: whatever the files are, both loaders return a table,
    never an exception, and every row of it is as wide as its header.
    [_read_csv_safe] adds and removes no cell: it raises what the reader
    raises and otherwise returns the rows of the frame cell by cell. *)
Theorem loaders_total_and_rectangular (σ : Sys) :
  (exists d : dataset,
      fst (load_schedule_from_csv σ) = Ok d /\ rectangular d)
  /\ (exists d : dataset,
         fst (load_members_from_csv σ) = Ok d /\ rectangular d)
  /\ (forall path : string,
         fst (_read_csv_safe path σ)
         = match read_frame path (csv_files (world σ) !! path) with
           | Ok df =>
               Ok (columns df, map (fun row => map cell_text row) (values df))
           | Raise e => Raise e
           end).
Proof.
  rewrite load_schedule_run, load_members_run; simpl.
  split; [|split].
  - eexists; split; [reflexivity|apply schedule_of_rect].
  - eexists; split; [reflexivity|apply members_of_rect].
  - intros path; rewrite read_csv_safe_run; reflexivity.
Qed.

(** ** Cells that read "nan" *)

Lemma cell_text_nan_to_missing (c : cell) :
  cell_text (nan_to_missing c) = cell_text c.
Proof.
  destruct c as [|s]; simpl; [reflexivity|].
  destruct (String.eqb s "nan") eqn:E; simpl; [reflexivity|].
  now rewrite E.
Qed.

Lemma frame_of_records_nan (labels : list string) (body : list (list cell)) :
  match frame_of_records labels body,
        frame_of_records labels (map (map nan_to_missing) body) with
  | Ok df, Ok df' => dataset_of_frame df = dataset_of_frame df'
  | Raise e, Raise e' => e = e'
  | _, _ => False
  end.
Proof.
  unfold frame_of_records.
  destruct labels as [|l labels]; [reflexivity|].
  set (n := length (l :: labels)).
  assert (Hw : match map (map nan_to_missing) body with
               | [] => n | r :: _ => max n (length r) end
               = match body with [] => n | r :: _ => max n (length r) end).
  { destruct body; simpl; [reflexivity|now rewrite length_map]. }
  rewrite Hw.
  set (w := match body with [] => n | r :: _ => max n (length r) end).
  assert (Hex : existsb (fun r => w <? length r) (map (map nan_to_missing) body)
                = existsb (fun r => w <? length r) body).
  { clearbody w; clear Hw; induction body as [|r body IH]; simpl; [reflexivity|].
    now rewrite length_map, IH. }
  rewrite Hex.
  destruct (existsb _ body); [reflexivity|].
  unfold dataset_of_frame; simpl; f_equal.
  rewrite !map_map; apply map_ext; intros r.
  rewrite length_map.
  rewrite <- !skipn_map, !map_app, map_map.
  f_equal; f_equal.
  symmetry; apply map_ext, cell_text_nan_to_missing.
Qed.

(** The frame the reader builds when no record is longer than a header
    that is not empty: the records, each filled with NaN to the width of
    the header. *)
Lemma frame_of_records_short (labels : list string) (body : list (list cell)) :
  labels <> [] ->
  Forall (fun r => length r <= length labels) body ->
  frame_of_records labels body
  = Ok {| columns := labels;
          values := map (fun r => r ++ replicate (length labels - length r) NaN)
                        body |}.
Proof.
  intros Hlabels Hshort; unfold frame_of_records.
  destruct labels as [|l labels]; [contradiction|].
  set (n := length (l :: labels)) in *.
  assert (Hw : match body with [] => n | r :: _ => max n (length r) end = n).
  { destruct body as [|r body]; [reflexivity|].
    inversion Hshort; subst; lia. }
  rewrite Hw.
  assert (Hex : existsb (fun r => n <? length r) body = false).
  { clear Hw; induction Hshort as [|r body Hr _ IH]; simpl; [reflexivity|].
    rewrite IH, orb_false_r; apply Nat.ltb_ge; exact Hr. }
  rewrite Hex, Nat.sub_diag; reflexivity.
Qed.

(** The text at column [j] of a record filled to [n] cells. *)
Lemma filled_record_lookup (r : list cell) (n j : nat) :
  length r <= n -> j < n ->
  map cell_text (r ++ replicate (n - length r) NaN) !! j
  = Some (match r !! j with
          | Some (Cell s) => if String.eqb s "nan" then EmptyString else s
          | Some NaN | None => EmptyString
          end).
Proof.
  intros Hr Hj.
  change (map cell_text (r ++ replicate (n - length r) NaN))
    with (cell_text <$> (r ++ replicate (n - length r) NaN)).
  rewrite list_lookup_fmap.
  destruct (r !! j) as [c|] eqn:Hc.
  - rewrite (lookup_app_l_Some _ _ _ _ Hc); simpl.
    destruct c; reflexivity.
  - apply lookup_ge_None in Hc.
    rewrite lookup_app_r by exact Hc.
    rewrite lookup_replicate_2 by lia; reflexivity.
Qed.

(** C10: a missing cell and a cell whose text is "nan" both become the
    empty string, any other text is kept.  The table [_read_csv_safe]
    returns holds, cell for cell, the empty string where the frame has a
    missing cell or the text "nan" and the text of the cell elsewhere;
    for a file whose records are no longer than its header that is one
    row per record, as wide as the header, with the empty string also
    where the record has no cell.  So a file gives the same table when
    its cells reading "nan" are replaced by missing ones. *)
Theorem nan_text_reads_as_missing :
  cell_text NaN = ""
  /\ cell_text (Cell "nan") = ""
  /\ (forall s : string, String.eqb s "nan" = false -> cell_text (Cell s) = s)
  /\ (forall (path : string) (labels : list string) (body : list (list cell))
             (s : State) (w : World),
         fst (run (_read_csv_safe path) s
                  (with_file path (Records labels body) w))
         = fst (run (_read_csv_safe path) s
                    (with_file path
                       (Records labels (map (map nan_to_missing) body)) w)))
  /\ (forall (labels : list string) (body : list (list cell))
             (s : State) (w : World),
         fst (run load_schedule_from_csv s
                  (with_file "schedule.csv" (Records labels body) w))
         = fst (run load_schedule_from_csv s
                    (with_file "schedule.csv"
                       (Records labels (map (map nan_to_missing) body)) w))
         /\ fst (run load_members_from_csv s
                     (with_file "members.csv" (Records labels body) w))
            = fst (run load_members_from_csv s
                       (with_file "members.csv"
                          (Records labels (map (map nan_to_missing) body)) w)))
  /\ (forall (path : string) (σ : Sys) (df : DataFrame),
         read_frame path (csv_files (world σ) !! path) = Ok df ->
         fst (_read_csv_safe path σ)
         = Ok (columns df,
               map (map (fun c =>
                           match c with
                           | NaN => EmptyString
                           | Cell s =>
                               if String.eqb s "nan" then EmptyString else s
                           end))
                   (values df)))
  /\ (forall (path : string) (labels : list string) (body : list (list cell))
             (s : State) (w : World),
         labels <> [] ->
         Forall (fun r => length r <= length labels) body ->
         exists rows : list (list string),
           fst (run (_read_csv_safe path) s
                    (with_file path (Records labels body) w))
           = Ok (labels, rows)
           /\ length rows = length body
           /\ forall (i j : nat) (r : list cell),
               body !! i = Some r ->
               j < length labels ->
               exists row : list string,
                 rows !! i = Some row
                 /\ length row = length labels
                 /\ row !! j
                    = Some (match r !! j with
                            | Some (Cell t) =>
                                if String.eqb t "nan" then EmptyString else t
                            | Some NaN | None => EmptyString
                            end))
  /\ fst (run (_read_csv_safe "members.csv") initial_state
              (with_file "members.csv" nan_sample bare_world))
     = Ok (["Name"; "Role"],
           [ [EmptyString; EmptyString]; ["Ann"; EmptyString];
             ["Bob"; "host"] ]).
Proof.
  split; [reflexivity|split; [reflexivity|]].
  split; [intros s H; simpl; now rewrite H|].
  split.
  { intros path labels body s w; unfold run.
    rewrite !read_csv_safe_run; simpl.
    rewrite !lookup_insert_eq; simpl.
    pose proof (frame_of_records_nan labels body) as H.
    destruct (frame_of_records labels body),
             (frame_of_records labels (map (map nan_to_missing) body));
      try contradiction; congruence. }
  split.
  { intros labels body s w; unfold run.
    rewrite !load_schedule_run, !load_members_run; simpl.
    rewrite !lookup_insert_eq; simpl.
    pose proof (frame_of_records_nan labels body) as H.
    destruct (frame_of_records labels body),
             (frame_of_records labels (map (map nan_to_missing) body));
      try contradiction; simpl; [rewrite H|]; split; reflexivity. }
  split.
  { intros path σ df Hdf.
    rewrite read_csv_safe_run, Hdf; reflexivity. }
  split; [|vm_compute; reflexivity].
  intros path labels body s w Hlabels Hshort; unfold run.
  rewrite read_csv_safe_run; simpl.
  rewrite lookup_insert_eq; simpl.
  rewrite (frame_of_records_short labels body Hlabels Hshort).
  unfold dataset_of_frame; simpl.
  eexists; split; [reflexivity|].
  split; [rewrite !length_map; reflexivity|].
  intros i j r Hi Hj.
  assert (Hr : length r <= length labels)
    by (eapply (proj1 (Forall_lookup _ _) Hshort); eauto).
  exists (map cell_text (r ++ replicate (length labels - length r) NaN)).
  split.
  - rewrite map_map.
    change (map (fun x => map cell_text
                            (x ++ replicate (length labels - length x) NaN))
                body)
      with ((fun x => map cell_text
                        (x ++ replicate (length labels - length x) NaN))
              <$> body).
    rewrite list_lookup_fmap, Hi; reflexivity.
  - split; [rewrite length_map, length_app, length_replicate; lia|].
    now apply filled_record_lookup.
Qed.

(** ** Loading on mount *)

Ltac case_if_goal :=
  match goal with |- context [if ?b then _ else _] => destruct b end.

Lemma load_data_on_mount_run (σ : Sys) :
  load_data_on_mount σ = (Ok None, mount_members (mount_schedule σ)).
Proof.
  destruct σ as [s w].
  unfold load_data_on_mount, mount_members, mount_schedule, bind, get_self,
    assign, put_self, ret; simpl.
  destruct (negb (nonempty (schedule_headers s))
            || negb (nonempty (schedule_rows s))); simpl.
  - rewrite load_schedule_run; simpl.
    destruct (schedule_of _) as [h r]; simpl.
    destruct (negb (nonempty (members_headers s))
              || negb (nonempty (members_rows s))); simpl; [|reflexivity].
    rewrite load_members_run; simpl.
    destruct (members_of _) as [h' r']; reflexivity.
  - destruct (negb (nonempty (members_headers s))
              || negb (nonempty (members_rows s))); simpl; [|reflexivity].
    rewrite load_members_run; simpl.
    destruct (members_of _) as [h' r']; reflexivity.
Qed.

Lemma read_frame_columns (path : string) (f : option csv_file) (df : DataFrame) :
  read_frame path f = Ok df -> nonempty (columns df) = true.
Proof.
  destruct f as [[e|labels body]|]; simpl; try discriminate.
  unfold frame_of_records; destruct labels; [discriminate|].
  destruct (existsb _ body); [discriminate|].
  intros [= <-]; reflexivity.
Qed.

Lemma schedule_of_headers (path : string) (f : option csv_file) :
  nonempty (fst (schedule_of (read_frame path f))) = true.
Proof.
  destruct (read_frame path f) as [df|e] eqn:H; simpl; [|reflexivity].
  eapply read_frame_columns; eauto.
Qed.

Lemma members_of_headers (path : string) (f : option csv_file) :
  nonempty (fst (members_of (read_frame path f))) = true.
Proof.
  destruct (read_frame path f) as [df|e] eqn:H; simpl; [|reflexivity].
  unfold contacts_formatted; simpl.
  destruct (list_index _ _); simpl; eapply read_frame_columns; eauto.
Qed.

Lemma loads_log_read (path q : string) (w : World) :
  loads path (log_read q w)
  = (if String.eqb path q then 1 else 0) + loads path w.
Proof.
  unfold loads, log_read; simpl.
  destruct (String.eqb path q); reflexivity.
Qed.

(** After a mount a table has a header; so it is loaded again exactly
    when it has no rows. *)
Lemma mount_schedule_headers (σ : Sys) :
  nonempty (schedule_headers (self (mount_schedule σ))) = true.
Proof.
  unfold mount_schedule.
  destruct (nonempty (schedule_headers (self σ))) eqn:Hh; simpl.
  - destruct (nonempty (schedule_rows (self σ))); simpl; [exact Hh|].
    apply schedule_of_headers.
  - apply schedule_of_headers.
Qed.

Lemma mount_members_headers (σ : Sys) :
  nonempty (members_headers (self (mount_members σ))) = true.
Proof.
  unfold mount_members.
  destruct (nonempty (members_headers (self σ))) eqn:Hh; simpl.
  - destruct (nonempty (members_rows (self σ))); simpl; [exact Hh|].
    apply members_of_headers.
  - apply members_of_headers.
Qed.

Lemma mount_members_schedule (σ : Sys) :
  schedule_headers (self (mount_members σ)) = schedule_headers (self σ)
  /\ schedule_rows (self (mount_members σ)) = schedule_rows (self σ)
  /\ loads "schedule.csv" (world (mount_members σ))
     = loads "schedule.csv" (world σ).
Proof.
  unfold mount_members.
  destruct (_ || _); simpl; [|tauto].
  rewrite loads_log_read; simpl; tauto.
Qed.

Lemma mount_schedule_members (σ : Sys) :
  members_headers (self (mount_schedule σ)) = members_headers (self σ)
  /\ members_rows (self (mount_schedule σ)) = members_rows (self σ)
  /\ loads "members.csv" (world (mount_schedule σ))
     = loads "members.csv" (world σ).
Proof.
  unfold mount_schedule.
  destruct (_ || _); simpl; [|tauto].
  rewrite loads_log_read; simpl; tauto.
Qed.

Lemma mount_schedule_loads (σ : Sys) :
  loads "schedule.csv" (world (mount_schedule σ))
  = (if negb (nonempty (schedule_headers (self σ)))
        || negb (nonempty (schedule_rows (self σ)))
     then 1 else 0) + loads "schedule.csv" (world σ).
Proof.
  unfold mount_schedule.
  destruct (_ || _); simpl; [|reflexivity].
  rewrite loads_log_read; reflexivity.
Qed.

Lemma mount_members_loads (σ : Sys) :
  loads "members.csv" (world (mount_members σ))
  = (if negb (nonempty (members_headers (self σ)))
        || negb (nonempty (members_rows (self σ)))
     then 1 else 0) + loads "members.csv" (world σ).
Proof.
  unfold mount_members.
  destruct (_ || _); simpl; [|reflexivity].
  rewrite loads_log_read; reflexivity.
Qed.

(** C5, as stated, fails: at the start of a session without a members
    file the first mount loads the members and is left with the fallback,
    which has no rows, and the second mount loads them again. *)
Lemma mount_twice_loads_members_twice :
  let σ1 := snd (load_data_on_mount (start bare_world)) in
  let σ2 := snd (load_data_on_mount σ1) in
  (members_headers (self σ1), members_rows (self σ1)) = members_fallback
  /\ loads "members.csv" (world σ1) = 1
  /\ loads "members.csv" (world σ2) = 2
  /\ reads (world σ2) = ["members.csv"; "members.csv"; "schedule.csv"].
Proof. vm_compute. repeat split; reflexivity. Qed.

(** C5, amended: a mount loads each table at most once, and the mount
    after it loads a table again exactly when the first mount left that
    table without rows (as the members fallback and a file with only a
    header do); a table left with a row is not loaded again. *)
Theorem mount_twice_loads (σ : Sys) :
  let σ1 := snd (load_data_on_mount σ) in
  let σ2 := snd (load_data_on_mount σ1) in
  loads "schedule.csv" (world σ1) <= 1 + loads "schedule.csv" (world σ)
  /\ loads "members.csv" (world σ1) <= 1 + loads "members.csv" (world σ)
  /\ loads "schedule.csv" (world σ2)
     = (if nonempty (schedule_rows (self σ1)) then 0 else 1)
       + loads "schedule.csv" (world σ1)
  /\ loads "members.csv" (world σ2)
     = (if nonempty (members_rows (self σ1)) then 0 else 1)
       + loads "members.csv" (world σ1).
Proof.
  rewrite (load_data_on_mount_run σ); simpl.
  set (σa := mount_schedule σ).
  set (σ1 := mount_members σa).
  rewrite (load_data_on_mount_run σ1); simpl.
  set (σb := mount_schedule σ1).
  destruct (mount_members_schedule σa) as (Hh & Hr & Hl).
  destruct (mount_members_schedule σb) as (_ & _ & Hl2).
  destruct (mount_schedule_members σ1) as (Hmh & Hmr & Hml).
  destruct (mount_schedule_members σ) as (_ & _ & Hml0).
  fold σ1 in Hh, Hr, Hl; fold σa in Hml0; fold σb in Hmh, Hmr, Hml.
  pose proof (mount_schedule_headers σ) as Hsh; fold σa in Hsh.
  pose proof (mount_members_headers σa) as Hmhd; fold σ1 in Hmhd.
  pose proof (mount_schedule_loads σ) as Ls; fold σa in Ls.
  pose proof (mount_members_loads σa) as Lm; fold σ1 in Lm.
  pose proof (mount_schedule_loads σ1) as Ls2; fold σb in Ls2.
  pose proof (mount_members_loads σb) as Lm2.
  rewrite Hmh, Hmr, Hmhd in Lm2.
  rewrite Hh, Hsh in Ls2.
  simpl negb in Ls2, Lm2; simpl orb in Ls2, Lm2.
  rewrite Hl2, Lm2, Hml, Ls2.
  clearbody σb σ1 σa.
  repeat split.
  - rewrite Hl, Ls; case_if_goal; lia.
  - rewrite Lm, Hml0; case_if_goal; lia.
  - rewrite Hr; destruct (nonempty (schedule_rows (self σa))); reflexivity.
  - destruct (nonempty (members_rows (self σ1))); reflexivity.
Qed.

(** ** Prayer requests *)

(** The four ways [submit_prayer_request] ends. *)
Lemma submit_prayer_request_run (s : State) (w : World) :
  let text := Str.strip (prayer_request_text s) in
  let name := strftime (clock w) in
  let dir := default ∅ (requests w) in
  run submit_prayer_request s w
  = if negb (Str.truthy text) then
      (Ok (Some (ToastError "Please enter a prayer request.")),
       {| self := s; world := w |})
    else
      match fault w Makedirs, fault w OpenFile, fault w WriteFile with
      | Some e, _, _ =>
          (Ok (Some (ToastError ("Error saving prayer request: " +:+ str_exn e))),
           {| self := s; world := w |})
      | None, Some e, _ =>
          (Ok (Some (ToastError ("Error saving prayer request: " +:+ str_exn e))),
           {| self := s; world := set_requests (Some dir) w |})
      | None, None, Some e =>
          (Ok (Some (ToastError ("Error saving prayer request: " +:+ str_exn e))),
           {| self := s; world := set_requests (Some (<[name := ""]> dir)) w |})
      | None, None, None =>
          (Ok (Some (ToastSuccess "Prayer request submitted and saved.")),
           {| self := set_prayer_request_text "" s;
              world := set_requests (Some (<[name := text]> dir)) w |})
      end.
Proof.
  unfold run, submit_prayer_request, bind, get_self; simpl.
  destruct (Str.truthy (Str.strip (prayer_request_text s))); simpl;
    [|reflexivity].
  unfold try_except, bind, os_makedirs, write_text, datetime_now, get_world,
    put_world, assign, bind, get_self, put_self, raise, ret; simpl.
  destruct (fault w Makedirs); simpl; [reflexivity|].
  destruct (fault w OpenFile); simpl; [reflexivity|].
  destruct (fault w WriteFile); reflexivity.
Qed.

Lemma submit_prayer_request_view (s : State) (w : World) :
  auth_view (self (snd (run submit_prayer_request s w))) = auth_view s.
Proof.
  rewrite submit_prayer_request_run.
  destruct (negb _); [reflexivity|].
  destruct (fault w Makedirs), (fault w OpenFile), (fault w WriteFile); reflexivity.
Qed.

Lemma load_data_on_mount_view (s : State) (w : World) :
  auth_view (self (snd (run load_data_on_mount s w))) = auth_view s.
Proof.
  unfold run; rewrite load_data_on_mount_run; simpl.
  unfold mount_members, mount_schedule; simpl.
  destruct (negb (nonempty (schedule_headers s)) || _); simpl;
    destruct (_ || _); reflexivity.
Qed.

(** ** Invariants of the session *)

Ltac by_view H :=
  unfold auth_view, run in H; injection H as ? ? ? ? ?; congruence.

Ltac by_view_then IH :=
  match goal with
  | H : auth_view _ = auth_view _ |- _ =>
      unfold auth_view, run in H; injection H as ? ? ? ? ?;
      let Herr := fresh in
      intros Herr;
      assert (Hflag : show_error _ = true) by (etransitivity; [symmetry|]; eassumption);
      specialize (IH Hflag); congruence
  end.

(** Unfold a handler made of assignments and tests. *)
Ltac unfold_handler :=
  unfold handle, handle_key_down;
  unfold set_password, submit_password, logout, check_auth_and_redirect, toggle_members, toggle_schedule,
    set_prayer_request, assign, bind, get_self, put_self, ret;
  simpl.

Lemma reachable_views (s : State) :
  reachable s -> show_schedule s = negb (show_members s).
Proof.
  induction 1 as [|s ev w Hs IH]; [reflexivity|].
  destruct ev; unfold handle;
    try (pose proof (submit_prayer_request_view s w) as H; by_view H);
    try (pose proof (load_data_on_mount_view s w) as H; by_view H);
    unfold_handler; try reflexivity; try exact IH.
  - destruct (show_error s); exact IH.
  - destruct (String.eqb (password s) secret); exact IH.
  - destruct (String.eqb key "Enter"); simpl; [|exact IH].
    destruct (String.eqb (password s) secret); exact IH.
  - destruct (negb (is_authenticated s)); exact IH.
Qed.

(** While the error flag is up the keyword typed is not the secret. *)
Lemma reachable_error (s : State) :
  reachable s -> show_error s = true -> String.eqb (password s) secret = false.
Proof.
  induction 1 as [|s ev w Hs IH]; [discriminate|].
  destruct ev; unfold handle;
    try (pose proof (submit_prayer_request_view s w) as H; by_view_then IH);
    try (pose proof (load_data_on_mount_view s w) as H; by_view_then IH);
    unfold_handler; try discriminate; try exact IH.
  - destruct (show_error s) eqn:E; simpl; [|rewrite E]; discriminate.
  - destruct (String.eqb (password s) secret) eqn:E; simpl;
      [rewrite E; exact IH|].
    intros _; exact E.
  - destruct (String.eqb key "Enter"); simpl; [|exact IH].
    destruct (String.eqb (password s) secret) eqn:E; simpl;
      [rewrite E; exact IH|].
    intros _; exact E.
  - destruct (negb (is_authenticated s)); exact IH.
Qed.

(** ** The keyword *)

(** C1, as stated, fails on two states.  With the keyword in place and
    the error flag up, [submit_password] logs in and leaves the flag up:
    it does not write it.  And in a session that is logged in and has a
    wrong keyword typed again, [submit_password] leaves
    [is_authenticated] true. *)
Lemma submit_password_leaves_flag_and_login :
  (password flagged_state = secret
   /\ fst (run submit_password flagged_state bare_world)
      = Ok (Some (Redirect "/home"))
   /\ show_error (self (snd (run submit_password flagged_state bare_world)))
      = true)
  /\ (reachable logged_in_retyping
      /\ String.eqb (password logged_in_retyping) secret = false
      /\ is_authenticated
           (self (snd (run submit_password logged_in_retyping bare_world)))
         = true).
Proof.
  split; [repeat split|split; [|split; reflexivity]].
  exact (reachable_step _ (SetPassword "guess") bare_world
           (reachable_step _ SubmitPassword bare_world
              (reachable_step _ (SetPassword secret) bare_world
                 reachable_init))).
Qed.

(** C1, amended: in every state a session reaches, [submit_password]
    with the secret typed sets [is_authenticated], returns the redirect
    to "/home" and leaves [show_error] as it is, which is false there
    (typing cleared it); with anything else typed it sets [show_error],
    returns nothing, and leaves [is_authenticated] and the keyword as
    they are.  The world is not touched. *)
Theorem submit_password_spec (s : State) (w : World) (Hs : reachable s) :
  let r := fst (run submit_password s w) in
  let σ := snd (run submit_password s w) in
  world σ = w
  /\ if String.eqb (password s) secret then
       r = Ok (Some (Redirect "/home"))
       /\ is_authenticated (self σ) = true
       /\ show_error (self σ) = show_error s
       /\ show_error (self σ) = false
     else
       r = Ok None
       /\ is_authenticated (self σ) = is_authenticated s
       /\ show_error (self σ) = true
       /\ password (self σ) = password s.
Proof.
  pose proof (reachable_error s Hs) as Herr.
  unfold run, submit_password, bind, get_self; simpl.
  destruct (String.eqb (password s) secret) eqn:E; simpl.
  - repeat split.
    destruct (show_error s); [|reflexivity].
    specialize (Herr eq_refl); discriminate.
  - repeat split.
Qed.

Lemma submit_password_spec_witness :
  let typed := self (snd (handle (SetPassword secret) (start bare_world))) in
  reachable typed
  /\ fst (run submit_password typed bare_world) = Ok (Some (Redirect "/home"))
  /\ is_authenticated (self (snd (run submit_password typed bare_world)))
     = true
  /\ show_error (self (snd (run submit_password typed bare_world))) = false.
Proof.
  assert (Hs : reachable
                 (self (snd (handle (SetPassword secret) (start bare_world)))))
    by exact (reachable_step _ (SetPassword secret) bare_world reachable_init).
  split; [exact Hs|].
  pose proof (submit_password_spec _ bare_world Hs) as H.
  simpl in H.
  destruct H as (_ & Hr & Hauth & _ & Hflag).
  split; [exact Hr|split; [exact Hauth|exact Hflag]].
Defined.

(** ** The two views *)

(** C6: in every state a session reaches exactly one of the two views is
    shown, and each toggle shows its own view and hides the other,
    whatever the state was. *)
Theorem one_view_shown (s : State) (Hs : reachable s) :
  show_schedule s = negb (show_members s)
  /\ (forall w : World,
         fst (run toggle_members s w) = Ok None
         /\ show_members (self (snd (run toggle_members s w))) = true
         /\ show_schedule (self (snd (run toggle_members s w))) = false)
  /\ (forall w : World,
         fst (run toggle_schedule s w) = Ok None
         /\ show_members (self (snd (run toggle_schedule s w))) = false
         /\ show_schedule (self (snd (run toggle_schedule s w))) = true).
Proof.
  split; [exact (reachable_views s Hs)|].
  split; intros w; repeat split.
Qed.

Lemma one_view_shown_witness :
  let s := self (snd (handle ToggleMembers (start bare_world))) in
  reachable s /\ show_schedule s = negb (show_members s).
Proof.
  assert (Hs : reachable (self (snd (handle ToggleMembers (start bare_world)))))
    by exact (reachable_step _ ToggleMembers bare_world reachable_init).
  split; [exact Hs|].
  exact (proj1 (one_view_shown _ Hs)).
Defined.

(** ** Saving a prayer request *)

(** C4, as stated, fails: with a draft that is not blank, when the system
    refuses to open the file no record is made and the draft stays; and
    when a request was saved in the same second, the record of that name
    is written over, so the folder holds no record more than before. *)
Lemma submit_without_new_record :
  (Str.strip (prayer_request_text drafted_state) = "Pray for Ann"
   /\ fst (run submit_prayer_request drafted_state denied_world)
      = Ok (Some (ToastError
                    "Error saving prayer request: [Errno 13] Permission denied"))
   /\ requests (world (snd (run submit_prayer_request drafted_state
                                denied_world)))
      = Some ∅
   /\ prayer_request_text
        (self (snd (run submit_prayer_request drafted_state denied_world)))
      = "  Pray for Ann  ")
  /\ (fst (run submit_prayer_request drafted_state taken_world)
      = Ok (Some (ToastSuccess "Prayer request submitted and saved."))
      /\ size <$> requests taken_world = Some 1
      /\ size <$> requests (world (snd (run submit_prayer_request drafted_state
                                            taken_world)))
         = Some 1).
Proof.
  split; [repeat split|]; vm_compute; repeat split; reflexivity.
Qed.

Lemma refused_cases (w : World) :
  refused w
  = match fault w Makedirs, fault w OpenFile, fault w WriteFile with
    | Some e, _, _ => Some e
    | None, Some e, _ => Some e
    | None, None, o => o
    end.
Proof.
  unfold refused.
  destruct (fault w Makedirs), (fault w OpenFile), (fault w WriteFile); reflexivity.
Qed.

(** C4, amended: a draft that is blank after trimming is turned down
    with the validation toast and nothing is written: the world is as it
    was.  A draft that is not blank is saved when the system refuses
    nothing: the folder then holds the trimmed text as the whole record
    under the name of the time stamp, its other records as they were, so
    one record more when the name was free, and the draft is emptied.
    When the system refuses a step, the error toast is returned with
    the draft unchanged. *)
Theorem submit_prayer_request_store (s : State) (w : World) :
  let text := Str.strip (prayer_request_text s) in
  let name := strftime (clock w) in
  let dir := default ∅ (requests w) in
  let r := fst (run submit_prayer_request s w) in
  let σ := snd (run submit_prayer_request s w) in
  if negb (Str.truthy text) then
    r = Ok (Some (ToastError "Please enter a prayer request."))
    /\ world σ = w /\ self σ = s
  else
    match refused w with
    | None =>
        r = Ok (Some (ToastSuccess "Prayer request submitted and saved."))
        /\ requests (world σ) = Some (<[name := text]> dir)
        /\ size (<[name := text]> dir)
           = match dir !! name with
             | None => S (size dir)
             | Some _ => size dir
             end
        /\ prayer_request_text (self σ) = ""
    | Some e =>
        r = Ok (Some (ToastError
                        ("Error saving prayer request: " +:+ str_exn e)))
        /\ prayer_request_text (self σ) = prayer_request_text s
    end.
Proof.
  intros text name dir r σ; subst r σ.
  rewrite submit_prayer_request_run, refused_cases.
  fold text name dir.
  destruct (negb (Str.truthy text)); [repeat split|].
  destruct (fault w Makedirs), (fault w OpenFile), (fault w WriteFile);
    simpl; try (split; reflexivity).
  repeat split.
  rewrite map_size_insert; destruct (dir !! name); reflexivity.
Qed.

(** C9: when the submission fails, because the draft is blank or
    because the system refuses a step of saving, [submit_prayer_request]
    returns an error toast and leaves the state, the draft with it, as it
    was; otherwise it returns the success toast, the record of the time
    stamp holds the trimmed text, and the draft is emptied. *)
Theorem submit_keeps_draft_on_failure (s : State) (w : World) :
  let r := fst (run submit_prayer_request s w) in
  let σ := snd (run submit_prayer_request s w) in
  match submit_failure s w with
  | Some f =>
      r = Ok (Some (failure_toast f))
      /\ self σ = s
  | None =>
      r = Ok (Some (ToastSuccess "Prayer request submitted and saved."))
      /\ self σ = set_prayer_request_text "" s
      /\ (exists dir : gmap string string,
             requests (world σ) = Some dir
             /\ dir !! strftime (clock w)
                = Some (Str.strip (prayer_request_text s)))
  end.
Proof.
  intros r σ; subst r σ.
  unfold submit_failure.
  rewrite submit_prayer_request_run, refused_cases.
  destruct (Str.truthy (Str.strip (prayer_request_text s))); simpl;
    [|split; reflexivity].
  destruct (fault w Makedirs), (fault w OpenFile), (fault w WriteFile);
    simpl; try (split; reflexivity).
  split; [reflexivity|split; [reflexivity|]].
  eexists; split; [reflexivity|apply lookup_insert_eq].
Qed.

(** ** A session, step by step *)

Example login_flow :
  let σ1 := snd (handle (SetPassword "guess") (start bare_world)) in
  let σ2 := snd (handle SubmitPassword σ1) in
  let σ3 := snd (handle (SetPassword secret) σ2) in
  let r4 := fst (handle (HandleKeyDown "Enter") σ3) in
  let σ4 := snd (handle (HandleKeyDown "Enter") σ3) in
  let σ5 := snd (handle Logout σ4) in
  (show_error (self σ2), is_authenticated (self σ2)) = (true, false)
  /\ show_error (self σ3) = false
  /\ r4 = Ok (Some (Redirect "/home"))
  /\ is_authenticated (self σ4) = true
  /\ (password (self σ5), is_authenticated (self σ5)) = (EmptyString, false).
Proof. vm_compute. repeat split; reflexivity. Qed.

Example save_flow :
  let σ1 := snd (handle (SetPrayerRequest "  Pray for Ann  ") (start bare_world)) in
  let r2 := fst (handle SubmitPrayerRequest σ1) in
  let σ2 := snd (handle SubmitPrayerRequest σ1) in
  r2 = Ok (Some (ToastSuccess "Prayer request submitted and saved."))
  /\ requests (world σ2)
     = Some {[ "09_12_2025_07_05_30.txt" := "Pray for Ann" ]}
  /\ prayer_request_text (self σ2) = "".
Proof. vm_compute. repeat split; reflexivity. Qed.

(** * Further properties of the code *)

(** ** The phone formatter keeps the digits *)

(** X1: formatting never drops, adds or reorders a digit: the digit
    characters of the result are those of the argument. *)
Theorem format_phone_number_keeps_digits (phone : string) :
  Str.filter Str.isdigit (_format_phone_number phone)
  = Str.filter Str.isdigit phone.
Proof.
  destruct (Nat.eq_dec (String.length (Str.filter Str.isdigit phone)) 10)
    as [Hten|Hnot].
  - rewrite (format_ten phone Hten), digits_of_formatted, <- slices_cover.
    apply filter_filter.
  - rewrite (format_other phone Hnot); reflexivity.
Qed.

(** ** Trimming *)

Lemma append_assoc' (a b c : string) : (a +:+ b) +:+ c = a +:+ (b +:+ c).
Proof.
  induction a as [|x a IH]; [reflexivity|].
  rewrite !append_cons, IH; reflexivity.
Qed.

Lemma append_empty_r (a : string) : a +:+ EmptyString = a.
Proof.
  induction a as [|x a IH]; [reflexivity|].
  rewrite append_cons, IH; reflexivity.
Qed.

Lemma rev_onto_app (s acc : string) :
  Str.rev_onto s acc = Str.rev s +:+ acc.
Proof.
  unfold Str.rev; revert acc.
  induction s as [|c s IH]; intros acc; simpl; [reflexivity|].
  rewrite (IH (String c acc)), (IH (String c EmptyString)), append_assoc'.
  reflexivity.
Qed.

Lemma rev_cons (c : ascii) (s : string) :
  Str.rev (String c s) = Str.rev s +:+ String c EmptyString.
Proof. unfold Str.rev at 1; simpl; apply rev_onto_app. Qed.

Lemma rev_snoc (c : ascii) (s : string) :
  Str.rev (s +:+ String c EmptyString) = String c (Str.rev s).
Proof.
  induction s as [|x s IH]; [reflexivity|].
  rewrite append_cons, !rev_cons, IH; reflexivity.
Qed.

Lemma rev_rev (s : string) : Str.rev (Str.rev s) = s.
Proof.
  induction s as [|c s IH]; [reflexivity|].
  rewrite rev_cons, rev_snoc, IH; reflexivity.
Qed.

Lemma lstrip_starts (s : string) : starts_space (Str.lstrip s) = false.
Proof.
  induction s as [|c s IH]; simpl; [reflexivity|].
  destruct (Str.isspace c) eqn:E; [exact IH|simpl; exact E].
Qed.

Lemma lstrip_snoc (c : ascii) (s : string) :
  Str.isspace c = false ->
  Str.lstrip (s +:+ String c EmptyString)
  = Str.lstrip s +:+ String c EmptyString.
Proof.
  intros Hc; induction s as [|x s IH].
  - simpl; rewrite Hc; reflexivity.
  - rewrite append_cons; simpl.
    destruct (Str.isspace x); [exact IH|reflexivity].
Qed.

Lemma rstrip_starts (s : string) :
  starts_space s = false -> starts_space (Str.rstrip s) = false.
Proof.
  destruct s as [|c s]; [reflexivity|]; simpl; intros Hc.
  unfold Str.rstrip.
  rewrite rev_cons, (lstrip_snoc c _ Hc), rev_snoc; simpl; exact Hc.
Qed.

Lemma strip_trimmed (s : string) :
  starts_space (Str.strip s) = false /\ ends_space (Str.strip s) = false.
Proof.
  unfold Str.strip; split.
  - apply rstrip_starts, lstrip_starts.
  - unfold ends_space, Str.rstrip; rewrite rev_rev; apply lstrip_starts.
Qed.

Lemma lstrip_fixed (s : string) :
  starts_space s = false -> Str.lstrip s = s.
Proof.
  destruct s as [|c s]; [reflexivity|]; simpl; intros Hc.
  rewrite Hc; reflexivity.
Qed.

(** [strip] leaves a string without whitespace at either end, and
    trimming a trimmed string changes nothing. *)
Lemma strip_idempotent (s : string) :
  starts_space (Str.strip s) = false
  /\ ends_space (Str.strip s) = false
  /\ Str.strip (Str.strip s) = Str.strip s.
Proof.
  destruct (strip_trimmed s) as [Hs He].
  split; [exact Hs|split; [exact He|]].
  unfold Str.strip at 1.
  rewrite (lstrip_fixed _ Hs).
  unfold Str.rstrip.
  unfold ends_space in He.
  rewrite (lstrip_fixed _ He), rev_rev; reflexivity.
Qed.

(** ** The name of a record *)

Lemma digit_code (n : nat) : nat_of_ascii (digit n) = 48 + n mod 10.
Proof.
  unfold digit; apply nat_ascii_embedding.
  pose proof (Nat.mod_upper_bound n 10); lia.
Qed.

Lemma digit_inj (n m : nat) : digit n = digit m -> n mod 10 = m mod 10.
Proof.
  intros H; apply (f_equal nat_of_ascii) in H.
  rewrite !digit_code in H; lia.
Qed.

Lemma two_digits_inj (n m : nat) :
  n < 100 -> m < 100 -> two_digits n = two_digits m -> n = m.
Proof.
  intros Hn Hm H; unfold two_digits in H.
  assert (H1 : digit (n / 10) = digit (m / 10)) by congruence.
  assert (H0 : digit n = digit m) by congruence.
  apply digit_inj in H1, H0.
  zify; Z.div_mod_to_equations; lia.
Qed.

Lemma four_digits_inj (n m : nat) :
  n < 10 * 1000 -> m < 10 * 1000 -> four_digits n = four_digits m -> n = m.
Proof.
  intros Hn Hm H; unfold four_digits, two_digits in H.
  assert (H3 : digit (n / 1000) = digit (m / 1000)) by congruence.
  assert (H2 : digit (n / 100) = digit (m / 100)) by congruence.
  assert (H1 : digit (n / 10) = digit (m / 10)) by congruence.
  assert (H0 : digit n = digit m) by congruence.
  apply digit_inj in H3, H2, H1, H0.
  zify; Z.div_mod_to_equations; lia.
Qed.

Lemma length_append (a b : string) :
  String.length (a +:+ b) = String.length a + String.length b.
Proof.
  induction a as [|c a IH]; [reflexivity|].
  rewrite append_cons; simpl; now rewrite IH.
Qed.

(** Two strings of the same length in front of equal wholes are equal,
    and so are the rests. *)
Lemma append_inj_length (a a' b b' : string) :
  String.length a = String.length a' ->
  a +:+ b = a' +:+ b' -> a = a' /\ b = b'.
Proof.
  revert a'; induction a as [|c a IH]; intros [|c' a'] Hlen H;
    try discriminate.
  - split; [reflexivity|exact H].
  - rewrite !append_cons in H; injection H as -> H.
    injection Hlen as Hlen.
    destruct (IH a' Hlen H) as [-> ->]; split; reflexivity.
Qed.

Lemma strftime_inj (t t' : datetime) :
  valid_datetime t -> valid_datetime t' -> strftime t = strftime t' -> t = t'.
Proof.
  intros (Hy & Hy' & Hmo & Hd & Hh & Hmi & Hs)
         (Gy & Gy' & Gmo & Gd & Gh & Gmi & Gs) H.
  unfold strftime in H.
  repeat match type of H with
         | ?a +:+ _ = ?a' +:+ _ =>
             let Ha := fresh "Ha" in
             apply append_inj_length in H; [destruct H as [Ha H]|reflexivity]
         end.
  apply two_digits_inj in Ha, Ha1, Ha5, Ha7, Ha9; try lia.
  apply four_digits_inj in Ha3; try lia.
  destruct t, t'; simpl in *; subst; reflexivity.
Qed.

(** X2: the name given to a record is 23 characters long,
    "MM_DD_YYYY_HH_MM_SS.txt" with every number padded with zeros, and
    two valid times that differ, be it by a second, give different
    names. *)
Theorem strftime_distinct (t t' : datetime)
        (Ht : valid_datetime t) (Ht' : valid_datetime t') (Hne : t <> t') :
  strftime t <> strftime t'
  /\ String.length (strftime t) = 23
  /\ Str.drop 19 (strftime t) = ".txt".
Proof.
  split; [intros H; apply Hne; now apply strftime_inj|].
  split; reflexivity.
Qed.

(** ** Typing the keyword, logging in and out *)

(** X3: [set_password] stores the keyword typed and takes the error flag
    down, whether it was up or not; it touches nothing else and returns
    nothing.  So the flag a failed [submit_password] leaves is gone with
    the next keystroke, whatever is typed. *)
Theorem set_password_clears_error (value : string) (s : State) (w : World) :
  let σ := snd (run (set_password value) s w) in
  fst (run (set_password value) s w) = Ok None
  /\ password (self σ) = value
  /\ show_error (self σ) = false
  /\ is_authenticated (self σ) = is_authenticated s
  /\ beyond_login (self σ) = beyond_login s
  /\ world σ = w
  /\ show_error
       (self (snd (run (set_password value)
                       (self (snd (run submit_password s w))) w))) = false.
Proof.
  unfold run, set_password, submit_password, assign, bind, get_self, put_self,
    ret; simpl.
  destruct (show_error s) eqn:E; simpl; rewrite ?E;
    destruct (String.eqb (password s) secret); simpl; rewrite ?E;
    repeat split; simpl; assumption.
Qed.

(** X4: no handler logs a session in but [submit_password], directly or
    through the Enter key, with the secret typed: when an event takes
    [is_authenticated] from false to true, it is one of these two, the
    keyword in the state is the secret, and the redirect to "/home" is
    returned. *)
Theorem login_only_by_secret (ev : Event) (s : State) (w : World)
        (Hout : is_authenticated s = false)
        (Hin : is_authenticated
                 (self (snd (handle ev {| self := s; world := w |}))) = true) :
  password s = secret
  /\ (ev = SubmitPassword \/ ev = HandleKeyDown "Enter")
  /\ fst (handle ev {| self := s; world := w |})
     = Ok (Some (Redirect "/home")).
Proof.
  destruct ev; unfold handle in *;
    try (pose proof (submit_prayer_request_view s w) as H; by_view H);
    try (pose proof (load_data_on_mount_view s w) as H; by_view H);
    revert Hin; unfold_handler.
  - destruct (show_error s); simpl; congruence.
  - destruct (String.eqb (password s) secret) eqn:E; simpl; [|congruence].
    apply String.eqb_eq in E; auto.
  - destruct (String.eqb key "Enter") eqn:K; simpl; [|congruence].
    apply String.eqb_eq in K; subst key.
    destruct (String.eqb (password s) secret) eqn:E; simpl; [|congruence].
    apply String.eqb_eq in E; auto.
  - discriminate.
  - destruct (negb (is_authenticated s)); simpl; congruence.
  - congruence.
  - congruence.
  - congruence.
Qed.

Lemma login_only_by_secret_witness :
  let typed := self (snd (handle (SetPassword secret) (start bare_world))) in
  is_authenticated typed = false
  /\ is_authenticated
       (self (snd (handle SubmitPassword {| self := typed; world := bare_world |})))
     = true
  /\ password typed = secret.
Proof.
  split; [reflexivity|split; [reflexivity|]].
  exact (proj1 (login_only_by_secret
                  SubmitPassword
                  (self (snd (handle (SetPassword secret) (start bare_world))))
                  bare_world eq_refl eq_refl)).
Defined.

(** X5: [logout] logs out, empties the keyword, takes the error flag
    down and returns the redirect to "/"; the tables loaded, the view
    chosen and the draft of the prayer request stay as they are.  After
    it [check_auth_and_redirect] returns the redirect to "/" and changes
    nothing, and a second [logout] changes nothing more. *)
Theorem logout_resets_login_only (s : State) (w : World) :
  let σ := snd (run logout s w) in
  fst (run logout s w) = Ok (Some (Redirect "/"))
  /\ (password (self σ), show_error (self σ), is_authenticated (self σ))
     = (EmptyString, false, false)
  /\ beyond_login (self σ) = beyond_login s
  /\ world σ = w
  /\ check_auth_and_redirect σ = (Ok (Some (Redirect "/")), σ)
  /\ snd (logout σ) = σ.
Proof. repeat split. Qed.

(** ** What the handlers do to the world *)

(** X6: no handler changes a CSV file, the clock or what the system
    refuses.  Only [load_data_on_mount] reads CSV files and only
    [submit_prayer_request] changes the folder of requests; every other
    handler leaves the world as it is. *)
Theorem handlers_keep_files (ev : Event) (s : State) (w : World) :
  let w' := world (snd (handle ev {| self := s; world := w |})) in
  csv_files w' = csv_files w
  /\ clock w' = clock w
  /\ (forall op, fault w' op = fault w op)
  /\ match ev with
     | LoadDataOnMount => requests w' = requests w
     | SubmitPrayerRequest => reads w' = reads w
     | _ => w' = w
     end.
Proof.
  destruct ev; unfold handle.
  - unfold_handler; destruct (show_error s); repeat split.
  - unfold_handler; destruct (String.eqb (password s) secret); repeat split.
  - unfold_handler; destruct (String.eqb key "Enter"); simpl;
      [destruct (String.eqb (password s) secret)|]; repeat split.
  - repeat split.
  - unfold_handler; destruct (negb (is_authenticated s)); repeat split.
  - repeat split.
  - repeat split.
  - repeat split.
  - pose proof (submit_prayer_request_run s w) as H; unfold run in H.
    rewrite H; clear H.
    destruct (negb _); [repeat split|].
    destruct (fault w Makedirs), (fault w OpenFile), (fault w WriteFile);
      repeat split.
  - rewrite load_data_on_mount_run.
    unfold mount_members, mount_schedule; simpl.
    destruct (negb (nonempty (schedule_headers s)) || _); simpl;
      destruct (_ || _); repeat split.
Qed.

(** ** The records of the folder *)

Lemma refused_none (w : World) :
  refused w = None ->
  fault w Makedirs = None /\ fault w OpenFile = None /\ fault w WriteFile = None.
Proof.
  unfold refused.
  destruct (fault w Makedirs); [discriminate|].
  destruct (fault w OpenFile); [discriminate|].
  auto.
Qed.

(** X7: the record a successful [submit_prayer_request] writes is the
    draft without the whitespace around it: it is not empty and neither
    begins nor ends with a whitespace character. *)
Theorem saved_request_is_trimmed (s : State) (w : World)
        (Hok : fst (run submit_prayer_request s w)
               = Ok (Some (ToastSuccess "Prayer request submitted and saved."))) :
  exists (dir : gmap string string) (text : string),
    requests (world (snd (run submit_prayer_request s w))) = Some dir
    /\ dir !! strftime (clock w) = Some text
    /\ text = Str.strip (prayer_request_text s)
    /\ Str.truthy text = true
    /\ starts_space text = false
    /\ ends_space text = false.
Proof.
  revert Hok; rewrite submit_prayer_request_run.
  destruct (Str.truthy (Str.strip (prayer_request_text s))) eqn:Ht; simpl;
    [|discriminate].
  destruct (fault w Makedirs), (fault w OpenFile), (fault w WriteFile);
    simpl; try discriminate.
  intros _.
  destruct (strip_trimmed (prayer_request_text s)) as [Hs He].
  eexists _, _; split; [reflexivity|].
  split; [apply lookup_insert_eq|auto].
Qed.

Lemma saved_request_is_trimmed_witness :
  exists (dir : gmap string string) (text : string),
    requests (world (snd (run submit_prayer_request drafted_state bare_world)))
    = Some dir
    /\ dir !! strftime (clock bare_world) = Some text
    /\ text = "Pray for Ann".
Proof.
  destruct (saved_request_is_trimmed drafted_state bare_world eq_refl)
    as (dir & text & Hdir & Hrec & Htext & _).
  exists dir, text; split; [exact Hdir|split; [exact Hrec|exact Htext]].
Defined.

(** X8: whatever its outcome, [submit_prayer_request] leaves every
    record of another name than the one of the time stamp as it was: it
    removes none and rewrites none. *)
Theorem submit_keeps_other_records (s : State) (w : World) (name : string)
        (Hname : name <> strftime (clock w)) :
  default ∅ (requests (world (snd (run submit_prayer_request s w)))) !! name
  = default ∅ (requests w) !! name.
Proof.
  rewrite submit_prayer_request_run.
  destruct (negb _); [reflexivity|].
  destruct (fault w Makedirs), (fault w OpenFile), (fault w WriteFile);
    simpl; try reflexivity; apply lookup_insert_ne; congruence.
Qed.

Lemma submit_keeps_other_records_witness :
  default ∅ (requests (world (snd (run submit_prayer_request drafted_state
                                       taken_world))))
    !! "01_01_2025_00_00_00.txt"
  = default ∅ (requests taken_world) !! "01_01_2025_00_00_00.txt".
Proof.
  apply (submit_keeps_other_records drafted_state taken_world).
  vm_compute; discriminate.
Defined.

(** X9: two requests saved at different valid times are both kept: when
    the system refuses nothing and both drafts have text, the folder
    holds after the second save the first text under the name of the
    first time and the second text under the name of the second. *)
Theorem two_saves_both_kept (s1 s2 : State) (w : World) (t2 : datetime)
        (Hv1 : valid_datetime (clock w)) (Hv2 : valid_datetime t2)
        (Hne : clock w <> t2)
        (Hok : refused w = None)
        (H1 : Str.truthy (Str.strip (prayer_request_text s1)) = true)
        (H2 : Str.truthy (Str.strip (prayer_request_text s2)) = true) :
  let σ1 := snd (run submit_prayer_request s1 w) in
  let σ2 := snd (run submit_prayer_request s2 (set_clock t2 (world σ1))) in
  exists dir : gmap string string,
    requests (world σ2) = Some dir
    /\ dir !! strftime (clock w) = Some (Str.strip (prayer_request_text s1))
    /\ dir !! strftime t2 = Some (Str.strip (prayer_request_text s2)).
Proof.
  destruct (refused_none w Hok) as (Hm & Ho & Hw).
  rewrite (submit_prayer_request_run s1 w); rewrite H1, Hm, Ho, Hw; simpl.
  rewrite submit_prayer_request_run; simpl.
  rewrite H2, Hm, Ho, Hw; simpl.
  eexists; split; [reflexivity|].
  split; [|apply lookup_insert_eq].
  rewrite lookup_insert_ne; [apply lookup_insert_eq|].
  intros E; apply Hne; symmetry; now apply strftime_inj.
Qed.

Lemma two_saves_both_kept_witness :
  let t2 := {| year := 2025; month := 9; day := 12;
               hour := 7; minute := 5; second := 31 |} in
  let s2 := set_prayer_request_text "Thanks" initial_state in
  let σ1 := snd (run submit_prayer_request drafted_state bare_world) in
  let σ2 := snd (run submit_prayer_request s2 (set_clock t2 (world σ1))) in
  exists dir : gmap string string,
    requests (world σ2) = Some dir
    /\ dir !! "09_12_2025_07_05_30.txt" = Some "Pray for Ann"
    /\ dir !! "09_12_2025_07_05_31.txt" = Some "Thanks".
Proof.
  apply (two_saves_both_kept
           drafted_state (set_prayer_request_text "Thanks" initial_state)
           bare_world
           {| year := 2025; month := 9; day := 12;
              hour := 7; minute := 5; second := 31 |}).
  - unfold valid_datetime; simpl; lia.
  - unfold valid_datetime; simpl; lia.
  - discriminate.
  - reflexivity.
  - reflexivity.
  - reflexivity.
Defined.

Lemma strftime_distinct_witness :
  strftime (clock bare_world)
  <> strftime {| year := 2025; month := 9; day := 12;
                 hour := 7; minute := 5; second := 31 |}.
Proof.
  refine (proj1 (strftime_distinct (clock bare_world) _ _ _ _)).
  - unfold valid_datetime; simpl; lia.
  - unfold valid_datetime; simpl; lia.
  - discriminate.
Defined.

(** ** The tables in the state *)

Lemma frame_of_records_length (labels : list string) (body : list (list cell))
      (df : DataFrame) :
  frame_of_records labels body = Ok df -> length (values df) = length body.
Proof.
  unfold frame_of_records.
  destruct labels; [discriminate|].
  destruct (existsb _ body); [discriminate|].
  intros [= <-]; simpl; apply length_map.
Qed.

Lemma contacts_formatted_length (d : dataset) :
  length (snd (contacts_formatted d)) = length (snd d).
Proof.
  unfold contacts_formatted.
  destruct (list_index _ _); simpl; [apply length_map|reflexivity].
Qed.

(** X10: after [load_data_on_mount] in a state that holds no members
    yet, [members_count] is the number of data records of members.csv
    when the file can be read, and 0 when it cannot: the fallback has no
    rows. *)
Theorem members_count_after_mount (s : State) (w : World)
        (Hneed : nonempty (members_headers s) && nonempty (members_rows s)
                 = false) :
  members_count (self (snd (run load_data_on_mount s w)))
  = match csv_files w !! "members.csv" with
    | Some (Records labels body) =>
        match frame_of_records labels body with
        | Ok _ => length body
        | Raise _ => 0
        end
    | _ => 0
    end.
Proof.
  unfold run; rewrite load_data_on_mount_run.
  unfold members_count, mount_members.
  destruct (mount_schedule_members {| self := s; world := w |})
    as (Hh & Hr & _).
  rewrite Hh, Hr; simpl.
  assert (Hcond : negb (nonempty (members_headers s))
                  || negb (nonempty (members_rows s)) = true).
  { destruct (nonempty (members_headers s)), (nonempty (members_rows s));
      simpl in *; congruence. }
  rewrite Hcond; simpl.
  assert (Hfiles : csv_files (world (mount_schedule {| self := s; world := w |}))
                   = csv_files w).
  { unfold mount_schedule; simpl; case_if_goal; reflexivity. }
  rewrite Hfiles.
  destruct (csv_files w !! "members.csv") as [[e|labels body]|]; simpl;
    try reflexivity.
  destruct (frame_of_records labels body) as [df|e] eqn:Hdf; simpl;
    [|reflexivity].
  rewrite contacts_formatted_length; simpl.
  rewrite length_map; eapply frame_of_records_length; eauto.
Qed.

Lemma members_count_after_mount_witness :
  members_count
    (self (snd (run load_data_on_mount initial_state
                    (with_file "members.csv" short_members bare_world))))
  = 3.
Proof.
  exact (members_count_after_mount
           initial_state (with_file "members.csv" short_members bare_world)
           eq_refl).
Defined.

(** ** The Contact column *)

(** [list_index x l] is the first position of [x] in [l]. *)
Lemma list_index_first (x : string) (l : list string) (i : nat) :
  list_index x l = Some i
  <-> l !! i = Some x /\ (forall j, j < i -> l !! j <> Some x).
Proof.
  revert i; induction l as [|y l IH]; intros i; simpl.
  - split; [discriminate|intros [H _]; discriminate].
  - destruct (String.eqb_spec y x) as [->|Hne].
    + split.
      * intros [= <-]; split; [reflexivity|intros j Hj; lia].
      * intros [Hi Hfirst]; destruct i as [|i]; [reflexivity|].
        exfalso; apply (Hfirst 0); [lia|reflexivity].
    + destruct (list_index x l) as [k|] eqn:Hk; simpl.
      * split.
        -- intros [= <-]; destruct (proj1 (IH k) eq_refl) as [Hl Hf].
           split; [exact Hl|].
           intros [|j] Hj; simpl; [congruence|apply Hf; lia].
        -- intros [Hi Hfirst]; destruct i as [|i]; simpl in Hi; [congruence|].
           f_equal; symmetry.
           assert (Hk' : Some k = Some i); [|congruence].
           apply IH; split; [exact Hi|].
           intros j Hj; apply (Hfirst (S j)); lia.
      * split; [discriminate|].
        intros [Hi Hfirst]; destruct i as [|i]; simpl in Hi; [congruence|].
        exfalso.
        assert (Hk' : None = Some i); [|discriminate].
        apply IH; split; [exact Hi|].
        intros j Hj; apply (Hfirst (S j)); lia.
Qed.

Lemma format_contact_lookup (i j : nat) (row : list string) :
  format_contact i row !! j
  = if Nat.eqb i j then _format_phone_number <$> row !! j else row !! j.
Proof.
  unfold format_contact.
  destruct (Nat.eqb_spec i j) as [->|Hne].
  - destruct (row !! j) as [v|] eqn:Hv; simpl; [|exact Hv].
    destruct v as [|c v]; simpl; [exact Hv|].
    apply list_lookup_insert_eq; eapply lookup_lt_Some; eauto.
  - destruct (row !! i) as [v|]; [|reflexivity].
    destruct (Str.truthy v); [|reflexivity].
    now apply list_lookup_insert_ne.
Qed.

(** X11: of the table read from members.csv, [load_members_from_csv]
    changes the cells of one column only, the first whose header is
    "Contact": each becomes its formatted phone number.  The header, the
    number of rows, the width of each row and every other cell are as
    they were read; without such a column the table is returned as
    read. *)
Theorem members_only_contact_formatted (σ : Sys) (headers : list string)
        (rows : list (list string))
        (Hread : fst (_read_csv_safe (_csv_path "members.csv") σ)
                 = Ok (headers, rows)) :
  exists rows' : list (list string),
    fst (load_members_from_csv σ) = Ok (headers, rows')
    /\ length rows' = length rows
    /\ (forall (k : nat) (row : list string),
           rows !! k = Some row ->
           exists row' : list string,
             rows' !! k = Some row'
             /\ length row' = length row
             /\ forall j : nat,
                 row' !! j
                 = if bool_decide (list_index "Contact" headers = Some j)
                   then _format_phone_number <$> row !! j
                   else row !! j)
    /\ (forall j : nat,
           list_index "Contact" headers = Some j
           <-> headers !! j = Some "Contact"
               /\ forall i, i < j -> headers !! i <> Some "Contact").
Proof.
  revert Hread; unfold _csv_path.
  rewrite load_members_run, read_csv_safe_run; simpl.
  destruct (read_frame _ _) as [df|e]; [|discriminate].
  unfold dataset_of_frame; intros [= Hh Hr]; simpl.
  unfold contacts_formatted, dataset_of_frame; simpl; rewrite Hh, Hr.
  destruct (list_index "Contact" headers) as [i|] eqn:Hi.
  - exists (map (format_contact i) rows).
    split; [reflexivity|split; [apply length_map|]].
    split; [|intros j; rewrite <- Hi; apply list_index_first].
    intros k row Hk.
    exists (format_contact i row).
    split; [change (map (format_contact i) rows)
              with (format_contact i <$> rows);
            rewrite list_lookup_fmap, Hk; reflexivity|].
    split; [apply length_format_contact|].
    intros j; rewrite format_contact_lookup.
    destruct (Nat.eqb_spec i j) as [->|Hne].
    + rewrite bool_decide_eq_true_2; reflexivity.
    + rewrite bool_decide_eq_false_2; [reflexivity|congruence].
  - exists rows; split; [reflexivity|split; [reflexivity|]].
    split; [|intros j; rewrite <- Hi; apply list_index_first].
    intros k row Hk; exists row; split; [exact Hk|split; [reflexivity|]].
    intros j; rewrite bool_decide_eq_false_2; [reflexivity|discriminate].
Qed.

Lemma members_only_contact_formatted_witness :
  exists rows' : list (list string),
    fst (load_members_from_csv
           (start (with_file "members.csv" short_members bare_world)))
    = Ok (["Name"; "Contact"], rows')
    /\ length rows' = 3.
Proof.
  destruct (members_only_contact_formatted
              (start (with_file "members.csv" short_members bare_world))
              ["Name"; "Contact"]
              [ ["Ann"; "123-456-7890"]; ["Bob"; ""]; ["Cy"; ""] ]
              eq_refl)
    as (rows' & Hload & Hlen & _).
  exists rows'; split; [exact Hload|exact Hlen].
Defined.

(** ** No cell reads "nan" *)

Lemma cell_text_not_nan (c : cell) : cell_text c <> "nan".
Proof.
  destruct c as [|s]; simpl; [discriminate|].
  destruct (String.eqb_spec s "nan"); [discriminate|assumption].
Qed.

Lemma format_not_nan (v : string) :
  v <> "nan" -> _format_phone_number v <> "nan".
Proof.
  intros Hv; unfold _format_phone_number.
  destruct (_ =? 10); [discriminate|exact Hv].
Qed.

Lemma format_contact_not_nan (i : nat) (row : list string) :
  Forall (fun c => c <> "nan") row ->
  Forall (fun c => c <> "nan") (format_contact i row).
Proof.
  intros H; unfold format_contact.
  destruct (row !! i) as [v|] eqn:Hv; [|exact H].
  destruct (Str.truthy v); [|exact H].
  apply Forall_insert; [exact H|].
  apply format_not_nan.
  eapply (proj1 (Forall_lookup _ _) H); eauto.
Qed.

Lemma dataset_of_frame_not_nan (df : DataFrame) :
  Forall (Forall (fun c => c <> "nan")) (snd (dataset_of_frame df)).
Proof.
  unfold dataset_of_frame; simpl.
  apply Forall_map, Forall_forall; intros row _; simpl.
  apply Forall_map, Forall_forall; intros c _; simpl.
  apply cell_text_not_nan.
Qed.

(** X12: no cell of a table a loader returns reads "nan", whether the
    table was read or is the fallback, and with the contacts formatted or
    not. *)
Theorem loaded_cells_not_nan (σ : Sys) :
  (exists d : dataset,
      fst (load_schedule_from_csv σ) = Ok d
      /\ Forall (Forall (fun c => c <> "nan")) (snd d))
  /\ (exists d : dataset,
         fst (load_members_from_csv σ) = Ok d
         /\ Forall (Forall (fun c => c <> "nan")) (snd d)).
Proof.
  rewrite load_schedule_run, load_members_run; simpl.
  split; eexists; (split; [reflexivity|]).
  - destruct (read_frame _ _) as [df|e]; simpl.
    + apply dataset_of_frame_not_nan.
    + repeat constructor; discriminate.
  - destruct (read_frame _ _) as [df|e]; simpl; [|constructor].
    unfold contacts_formatted.
    pose proof (dataset_of_frame_not_nan df) as H.
    destruct (list_index _ _); simpl; [|exact H].
    apply Forall_map; eapply Forall_impl; [exact H|].
    intros row Hrow; simpl; now apply format_contact_not_nan.
Qed.

(** ** The tables stay well formed *)

Lemma table_ok_loaded (d : dataset) :
  rectangular d -> nonempty (fst d) = true -> table_ok (fst d) (snd d).
Proof.
  destruct d as [h r]; simpl; intros Hrect Hne; split; [exact Hrect|].
  intros ->; discriminate.
Qed.

Lemma mount_schedule_ok (σ : Sys) :
  table_ok (schedule_headers (self σ)) (schedule_rows (self σ)) ->
  table_ok (schedule_headers (self (mount_schedule σ)))
           (schedule_rows (self (mount_schedule σ))).
Proof.
  intros H; unfold mount_schedule.
  case_if_goal; simpl; [|exact H].
  apply table_ok_loaded; [apply schedule_of_rect|apply schedule_of_headers].
Qed.

Lemma mount_members_ok (σ : Sys) :
  table_ok (members_headers (self σ)) (members_rows (self σ)) ->
  table_ok (members_headers (self (mount_members σ)))
           (members_rows (self (mount_members σ))).
Proof.
  intros H; unfold mount_members.
  case_if_goal; simpl; [|exact H].
  apply table_ok_loaded; [apply members_of_rect|apply members_of_headers].
Qed.

Lemma submit_prayer_request_tables (s : State) (w : World) :
  tables (self (snd (run submit_prayer_request s w))) = tables s.
Proof.
  rewrite submit_prayer_request_run.
  destruct (negb _); [reflexivity|].
  destruct (fault w Makedirs), (fault w OpenFile), (fault w WriteFile);
    reflexivity.
Qed.

(** Every handler but [load_data_on_mount] leaves the tables alone. *)
Lemma handle_tables (ev : Event) (s : State) (w : World) :
  ev <> LoadDataOnMount ->
  tables (self (snd (handle ev {| self := s; world := w |}))) = tables s.
Proof.
  intros Hev; destruct ev; try contradiction; unfold handle;
    try apply submit_prayer_request_tables; unfold_handler;
    try reflexivity.
  - destruct (show_error s); reflexivity.
  - destruct (String.eqb (password s) secret); reflexivity.
  - destruct (String.eqb key "Enter"); simpl; [|reflexivity].
    destruct (String.eqb (password s) secret); reflexivity.
  - destruct (negb (is_authenticated s)); reflexivity.
Qed.

(** X13: in every state a session reaches both tables are well formed:
    every row of the schedule and of the members is as wide as the
    header of its table, and a table without header has no rows. *)
Theorem reachable_tables_ok (s : State) (Hs : reachable s) :
  table_ok (schedule_headers s) (schedule_rows s)
  /\ table_ok (members_headers s) (members_rows s).
Proof.
  induction Hs as [|s ev w Hs [IHs IHm]].
  - split; split; try constructor; reflexivity.
  - assert (Hdec : ev = LoadDataOnMount \/ ev <> LoadDataOnMount)
      by (destruct ev; (left; reflexivity) || (right; discriminate)).
    destruct Hdec as [->|Hev].
    + unfold handle; rewrite load_data_on_mount_run; simpl.
      set (σ := {| self := s; world := w |}).
      destruct (mount_members_schedule (mount_schedule σ)) as (Hh & Hr & _).
      destruct (mount_schedule_members σ) as (Hmh & Hmr & _).
      split.
      * rewrite Hh, Hr; apply mount_schedule_ok; exact IHs.
      * apply mount_members_ok; rewrite Hmh, Hmr; exact IHm.
    + pose proof (handle_tables ev s w Hev) as H.
      unfold tables in H; injection H as -> -> -> ->.
      split; assumption.
Qed.

Lemma reachable_tables_ok_witness :
  let s := self (snd (handle LoadDataOnMount
                        (start (with_file "members.csv" short_members
                                          bare_world)))) in
  reachable s
  /\ rectangular (members_headers s, members_rows s)
  /\ members_rows s
     = [ ["Ann"; "(123) 456-7890"]; ["Bob"; ""]; ["Cy"; ""] ].
Proof.
  assert (Hs : reachable
                 (self (snd (handle LoadDataOnMount
                               (start (with_file "members.csv" short_members
                                                 bare_world))))))
    by exact (reachable_step _ LoadDataOnMount _ reachable_init).
  split; [exact Hs|].
  split; [exact (proj1 (proj2 (reachable_tables_ok _ Hs)))|].
  vm_compute; reflexivity.
Defined.

(** Every handler but [load_data_on_mount] reads no CSV file. *)
Lemma handlers_keep_reads (ev : Event) (s : State) (w : World) :
  ev <> LoadDataOnMount ->
  reads (world (snd (handle ev {| self := s; world := w |}))) = reads w.
Proof.
  intros Hev; destruct ev; try contradiction; unfold handle.
  - unfold_handler; destruct (show_error s); reflexivity.
  - unfold_handler; destruct (String.eqb (password s) secret); reflexivity.
  - unfold_handler; destruct (String.eqb key "Enter"); simpl;
      [destruct (String.eqb (password s) secret)|]; reflexivity.
  - reflexivity.
  - unfold_handler; destruct (negb (is_authenticated s)); reflexivity.
  - reflexivity.
  - reflexivity.
  - reflexivity.
  - pose proof (submit_prayer_request_run s w) as H; unfold run in H.
    rewrite H; clear H.
    destruct (negb _); [reflexivity|].
    destruct (fault w Makedirs), (fault w OpenFile), (fault w WriteFile);
      reflexivity.
Qed.

(** X14: a table that has a header and at least one row is kept by every
    handler: once loaded it is not read again and not changed for the
    rest of the session, whatever becomes of its file. *)
Theorem loaded_table_is_kept (t : table) (ev : Event) (s : State) (w : World)
        (Hloaded : nonempty (headers_of t s) && nonempty (rows_of t s) = true) :
  let σ' := snd (handle ev {| self := s; world := w |}) in
  headers_of t (self σ') = headers_of t s
  /\ rows_of t (self σ') = rows_of t s
  /\ loads (file_of t) (world σ') = loads (file_of t) w.
Proof.
  apply andb_prop in Hloaded; destruct Hloaded as [H1 H2].
  assert (Hdec : ev = LoadDataOnMount \/ ev <> LoadDataOnMount)
    by (destruct ev; (left; reflexivity) || (right; discriminate)).
  destruct Hdec as [->|Hev].
  - unfold handle; rewrite load_data_on_mount_run; simpl.
    set (σ := {| self := s; world := w |}).
    destruct (mount_members_schedule (mount_schedule σ)) as (Hh & Hr & Hl).
    destruct (mount_schedule_members σ) as (Hmh & Hmr & Hml).
    pose proof (mount_schedule_loads σ) as Ls.
    pose proof (mount_members_loads (mount_schedule σ)) as Lm.
    rewrite Hmh, Hmr, Hml in Lm.
    destruct t; simpl in *.
    + rewrite Hh, Hr, Hl, Ls; simpl; rewrite H1, H2; simpl.
      unfold mount_schedule; simpl; rewrite H1, H2; simpl; auto.
    + rewrite Lm; simpl; rewrite H1, H2; simpl.
      unfold mount_members; rewrite Hmh, Hmr; simpl; rewrite H1, H2; simpl.
      rewrite Hmh, Hmr; auto.
  - pose proof (handle_tables ev s w Hev) as H.
    pose proof (handlers_keep_reads ev s w Hev) as Hreads.
    unfold tables in H; injection H as H3 H4 H5 H6.
    unfold loads; simpl; rewrite Hreads.
    destruct t; simpl; auto.
Qed.

Lemma loaded_table_is_kept_witness :
  let s := self (snd (handle LoadDataOnMount (start bare_world))) in
  let σ' := snd (handle LoadDataOnMount {| self := s; world := bare_world |}) in
  (schedule_headers s, schedule_rows s) = schedule_fallback
  /\ schedule_rows (self σ') = schedule_rows s
  /\ loads "schedule.csv" (world σ') = 0.
Proof.
  split; [reflexivity|].
  destruct (loaded_table_is_kept
              Schedule LoadDataOnMount
              (self (snd (handle LoadDataOnMount (start bare_world))))
              bare_world eq_refl)
    as (_ & Hr & Hl).
  split; [exact Hr|exact Hl].
Defined.

Lemma mount_schedule_files (σ : Sys) :
  csv_files (world (mount_schedule σ)) = csv_files (world σ).
Proof. unfold mount_schedule; case_if_goal; reflexivity. Qed.

Lemma mount_members_files (σ : Sys) :
  csv_files (world (mount_members σ)) = csv_files (world σ).
Proof. unfold mount_members; case_if_goal; reflexivity. Qed.

(** A table is settled when a mount would put in place what is there:
    it has rows under a header, or it is what its file gives. *)
Lemma mount_schedule_settled (σ : Sys) :
  nonempty (schedule_headers (self σ)) && nonempty (schedule_rows (self σ))
  = true
  \/ (schedule_headers (self σ), schedule_rows (self σ))
     = schedule_of (read_frame "schedule.csv"
                      (csv_files (world σ) !! "schedule.csv")) ->
  self (mount_schedule σ) = self σ.
Proof.
  destruct σ as [s w]; unfold mount_schedule; simpl.
  intros [H|H].
  - apply andb_prop in H; destruct H as [-> ->]; reflexivity.
  - case_if_goal; [|reflexivity].
    rewrite <- H; destruct s; reflexivity.
Qed.

Lemma mount_members_settled (σ : Sys) :
  nonempty (members_headers (self σ)) && nonempty (members_rows (self σ))
  = true
  \/ (members_headers (self σ), members_rows (self σ))
     = members_of (read_frame "members.csv"
                     (csv_files (world σ) !! "members.csv")) ->
  self (mount_members σ) = self σ.
Proof.
  destruct σ as [s w]; unfold mount_members; simpl.
  intros [H|H].
  - apply andb_prop in H; destruct H as [-> ->]; reflexivity.
  - case_if_goal; [|reflexivity].
    rewrite <- H; destruct s; reflexivity.
Qed.

Lemma mount_schedule_settles (σ : Sys) :
  nonempty (schedule_headers (self (mount_schedule σ)))
  && nonempty (schedule_rows (self (mount_schedule σ))) = true
  \/ (schedule_headers (self (mount_schedule σ)),
      schedule_rows (self (mount_schedule σ)))
     = schedule_of (read_frame "schedule.csv"
                      (csv_files (world σ) !! "schedule.csv")).
Proof.
  unfold mount_schedule.
  destruct (nonempty (schedule_headers (self σ))) eqn:Hh;
    destruct (nonempty (schedule_rows (self σ))) eqn:Hr; simpl;
    rewrite ?Hh, ?Hr; simpl; auto;
    right; destruct (schedule_of _); reflexivity.
Qed.

Lemma mount_members_settles (σ : Sys) :
  nonempty (members_headers (self (mount_members σ)))
  && nonempty (members_rows (self (mount_members σ))) = true
  \/ (members_headers (self (mount_members σ)),
      members_rows (self (mount_members σ)))
     = members_of (read_frame "members.csv"
                     (csv_files (world σ) !! "members.csv")).
Proof.
  unfold mount_members.
  destruct (nonempty (members_headers (self σ))) eqn:Hh;
    destruct (nonempty (members_rows (self σ))) eqn:Hr; simpl;
    rewrite ?Hh, ?Hr; simpl; auto;
    right; destruct (members_of _); reflexivity.
Qed.

(** X15: mounting twice gives the state of mounting once: whatever the
    second [load_data_on_mount] reads again, it puts the same tables in
    place. *)
Theorem mount_twice_same_state (σ : Sys) :
  let σ1 := snd (load_data_on_mount σ) in
  self (snd (load_data_on_mount σ1)) = self σ1.
Proof.
  simpl; rewrite (load_data_on_mount_run σ); simpl.
  set (σa := mount_schedule σ).
  set (σ1 := mount_members σa).
  rewrite (load_data_on_mount_run σ1); simpl.
  assert (Hs : self (mount_schedule σ1) = self σ1).
  { apply mount_schedule_settled.
    destruct (mount_members_schedule σa) as (Hh & Hr & _).
    fold σ1 in Hh, Hr; rewrite Hh, Hr.
    unfold σ1; rewrite mount_members_files.
    unfold σa; rewrite mount_schedule_files.
    apply mount_schedule_settles. }
  transitivity (self (mount_schedule σ1)); [|exact Hs].
  apply mount_members_settled.
  destruct (mount_schedule_members σ1) as (Hh & Hr & _).
  rewrite Hh, Hr, mount_schedule_files.
  unfold σ1; rewrite mount_members_files.
  apply mount_members_settles.
Qed.

(** ** A file that can be read *)

(** X16: when schedule.csv has a header and no record with more fields
    than the header, [load_schedule_from_csv] returns the header of the
    file and one row for every data record, in order: the texts of its
    cells, followed by empty strings up to the width of the header.  A
    file with a header and no record gives the header and no rows, not
    the fallback. *)
Theorem load_schedule_reads_file (s : State) (w : World)
        (labels : list string) (body : list (list cell))
        (Hlabels : labels <> [])
        (Hshort : Forall (fun r => length r <= length labels) body) :
  fst (run load_schedule_from_csv s
           (with_file "schedule.csv" (Records labels body) w))
  = Ok (labels,
        map (fun r => map cell_text r
                      ++ replicate (length labels - length r) EmptyString)
            body).
Proof.
  unfold run; rewrite load_schedule_run; simpl.
  rewrite lookup_insert_eq; simpl.
  unfold frame_of_records.
  destruct labels as [|l labels]; [contradiction|].
  set (n := length (l :: labels)) in *.
  assert (Hw : match body with [] => n | r :: _ => max n (length r) end = n).
  { destruct body as [|r body]; [reflexivity|].
    inversion Hshort; subst; lia. }
  rewrite Hw.
  assert (Hex : existsb (fun r => n <? length r) body = false).
  { clear Hw; induction Hshort as [|r body Hr _ IH]; simpl; [reflexivity|].
    rewrite IH, orb_false_r; apply Nat.ltb_ge; exact Hr. }
  rewrite Hex; simpl.
  unfold dataset_of_frame; simpl; do 2 f_equal.
  rewrite map_map; apply map_ext; intros r.
  rewrite Nat.sub_diag; simpl.
  change (drop 0 (r ++ replicate (n - length r) NaN))
    with (r ++ replicate (n - length r) NaN).
  rewrite map_app; f_equal.
  induction (n - length r) as [|k IH]; simpl; [reflexivity|now rewrite IH].
Qed.

Lemma load_schedule_reads_file_witness :
  fst (run load_schedule_from_csv initial_state
           (with_file "schedule.csv"
              (Records ["Date"; "Event"]
                       [ [Cell "09/12/2025"; Cell "Opening"]; [Cell "09/19/2025"] ])
              bare_world))
  = Ok (["Date"; "Event"],
        [ ["09/12/2025"; "Opening"]; ["09/19/2025"; ""] ]).
Proof.
  apply (load_schedule_reads_file
           initial_state bare_world ["Date"; "Event"]
           [ [Cell "09/12/2025"; Cell "Opening"]; [Cell "09/19/2025"] ]).
  - discriminate.
  - repeat constructor.
Defined.
